(** * guillotina: responses, the ASGI stream writer and the application root

    A shallow embedding of [guillotina/response.py] and of the registry
    class of [guillotina/factory/content.py], with the properties of the
    streaming life cycle, of the materialized response family and of the
    database registry proved against it.

    Conventions of the embedding:
    - a Python [bytes] object is a [list byte], a [str] is a [string]
      (a sequence of UTF-8 bytes, whose byte-wise order is the code point
      order Python compares strings with);
    - [None] is [PyNone] for a dynamically typed argument and [None] for an
      optional one;
    - an exception is a value of [exn]; a call that can raise returns a
      [result];
    - the coroutines run on one task (nothing else is interleaved), so an
      [await] is an ordinary call and [await send(m)] appends [m] to the
      log of the transport. *)

From Stdlib Require Import ZArith Lia Bool Ascii String List Strings.Byte.
From Stdlib Require Import Sorting.Sorted Sorting.Permutation.
From stdpp Require Import base option list sorting strings pretty gmap.

#[local] Open Scope Z_scope.
#[local] Open Scope string_scope.
#[local] Open Scope list_scope.

(** ** Python values and exceptions *)

Definition bytes := list byte.

#[warnings="-register-all"]
Inductive pyval : Type :=
| PyNone
| PyStr (s : string)
| PyBytes (b : bytes)
| PyDict (items : list (string * pyval)).

(** Truth value of an object, as [or], [if] and [not] test it. *)
Definition truthy (v : pyval) : bool :=
  match v with
  | PyNone => false
  | PyStr s => negb (String.eqb s "")
  | PyBytes b => match b with [] => false | _ :: _ => true end
  | PyDict d => match d with [] => false | _ :: _ => true end
  end.

(** [a or b] *)
Definition py_or (a b : pyval) : pyval := if truthy a then a else b.

Inductive exn : Type :=
| ValueError (msg : string)
| RuntimeError (msg : string)
| AssertionError (msg : string)
| TypeError (msg : string)
| KeyError (key : string).

Inductive result (A : Type) : Type :=
| Ok (a : A)
| Raise (e : exn).
Arguments Ok {A} a.
Arguments Raise {A} e.

Definition is_raise {A} (r : result A) : bool :=
  match r with Ok _ => false | Raise _ => true end.

(** ** Dictionaries with insertion order

    A [dict] with string keys is the list of its items in insertion
    order; [d[k] = v] overwrites in place or appends. *)

Definition dict := list (string * pyval).

Fixpoint dict_setitem (d : dict) (k : string) (v : pyval) : dict :=
  match d with
  | [] => [(k, v)]
  | (k', v') :: d' =>
      if String.eqb k' k then (k, v) :: d' else (k', v') :: dict_setitem d' k v
  end.

(** [d.update(other)] *)
Definition dict_update (d other : dict) : dict :=
  fold_left (fun acc kv => dict_setitem acc (fst kv) (snd kv)) other d.

(** ** Strings: [str.upper], [sorted], [str.join] *)

Definition upper_ascii (c : ascii) : ascii :=
  let n := nat_of_ascii c in
  if (Nat.leb 97 n && Nat.leb n 122)%bool then ascii_of_nat (n - 32) else c.

(** [s.upper()] on the ASCII letters (the method names and header names of
    HTTP are ASCII). *)
Fixpoint upper (s : string) : string :=
  match s with
  | EmptyString => EmptyString
  | String c s' => String (upper_ascii c) (upper s')
  end.

Definition lower_ascii (c : ascii) : ascii :=
  let n := nat_of_ascii c in
  if (Nat.leb 65 n && Nat.leb n 90)%bool then ascii_of_nat (n + 32) else c.

Fixpoint lower (s : string) : string :=
  match s with
  | EmptyString => EmptyString
  | String c s' => String (lower_ascii c) (lower s')
  end.

(** The order of [str]: [a <= b]. *)
Definition str_le (a b : string) : Prop := String.leb a b = true.

#[global] Instance str_le_dec (a b : string) : Decision (str_le a b).
Proof. unfold str_le. apply _. Defined.

(** [sorted(l)] on a list of strings: a merge sort, as Python's is. *)
Definition sorted (l : list string) : list string := merge_sort str_le l.

(** [sep.join(l)] *)
Definition join (sep : string) (l : list string) : string := String.concat sep l.

(** ** [multidict.CIMultiDict]

    The entries in insertion order; two keys are the same when they agree
    up to case. *)

Definition CIMultiDict := list (string * string).

Definition same_key (k1 k2 : string) : bool := String.eqb (lower k1) (lower k2).

(** [CIMultiDict()] and [CIMultiDict(headers)]: every item of the
    argument is added. *)
Definition CIMultiDict_new (headers : option (list (string * string))) : CIMultiDict :=
  match headers with
  | None => []
  | Some items => items
  end.

(** [md.get(key)]: the value of the first entry with that key. *)
Fixpoint md_get (md : CIMultiDict) (key : string) : option string :=
  match md with
  | [] => None
  | (k, v) :: md' => if same_key k key then Some v else md_get md' key
  end.

(** [md[key] = value]: the first entry with that key is replaced where it
    stands and the later ones are removed; without one, the entry is
    appended. *)
Fixpoint md_setitem (md : CIMultiDict) (key value : string) : CIMultiDict :=
  match md with
  | [] => [(key, value)]
  | (k, v) :: md' =>
      if same_key k key
      then (key, value) :: List.filter (fun kv => negb (same_key (fst kv) key)) md'
      else (k, v) :: md_setitem md' key value
  end.

(** [md.setdefault(key, default)]: adds the entry only when the key is
    absent. *)
Definition md_setdefault (md : CIMultiDict) (key default : string) : CIMultiDict :=
  match md_get md key with
  | Some _ => md
  | None => md ++ [(key, default)]
  end.

(** ** The materialized response family

    One constructor per class of [response.py] that derives from
    [Response]. *)

Inductive ResponseClass : Type :=
| Response | RawResponse | ErrorResponse
| HTTPError | HTTPRedirection | HTTPSuccessful
| HTTPOk | HTTPCreated | HTTPAccepted | HTTPNonAuthoritativeInformation
| HTTPNoContent | HTTPResetContent | HTTPPartialContent
| _HTTPMove
| HTTPMultipleChoices | HTTPMovedPermanently | HTTPFound | HTTPSeeOther
| HTTPNotModified | HTTPUseProxy | HTTPTemporaryRedirect | HTTPPermanentRedirect
| HTTPClientError
| HTTPBadRequest | HTTPUnauthorized | HTTPPaymentRequired | HTTPForbidden
| HTTPNotFound | InvalidRoute | HTTPMethodNotAllowed | HTTPNotAcceptable
| HTTPProxyAuthenticationRequired | HTTPRequestTimeout | HTTPConflict
| HTTPGone | HTTPLengthRequired | HTTPPreconditionFailed
| HTTPRequestEntityTooLarge | HTTPRequestURITooLong
| HTTPUnsupportedMediaType | HTTPRequestRangeNotSatisfiable
| HTTPExpectationFailed | HTTPMisdirectedRequest | HTTPUnprocessableEntity
| HTTPFailedDependency | HTTPUpgradeRequired | HTTPPreconditionRequired
| HTTPTooManyRequests | HTTPRequestHeaderFieldsTooLarge
| HTTPUnavailableForLegalReasons
| HTTPServerError
| HTTPInternalServerError | HTTPNotImplemented | HTTPBadGateway
| HTTPServiceUnavailable | HTTPGatewayTimeout | HTTPVersionNotSupported
| HTTPVariantAlsoNegotiates | HTTPInsufficientStorage | HTTPNotExtended
| HTTPNetworkAuthenticationRequired.

(** The class attribute [status_code], as attribute lookup on the class
    finds it: the class's own, else the nearest base's ([InvalidRoute]
    takes 404 from [HTTPNotFound]); [None] on [Response] itself. *)
Definition class_status_code (cls : ResponseClass) : option Z :=
  match cls with
  | Response | RawResponse | ErrorResponse
  | HTTPError | HTTPRedirection | HTTPSuccessful | _HTTPMove
  | HTTPClientError | HTTPServerError => None
  | HTTPOk => Some 200
  | HTTPCreated => Some 201
  | HTTPAccepted => Some 202
  | HTTPNonAuthoritativeInformation => Some 203
  | HTTPNoContent => Some 204
  | HTTPResetContent => Some 205
  | HTTPPartialContent => Some 206
  | HTTPMultipleChoices => Some 300
  | HTTPMovedPermanently => Some 301
  | HTTPFound => Some 302
  | HTTPSeeOther => Some 303
  | HTTPNotModified => Some 304
  | HTTPUseProxy => Some 305
  | HTTPTemporaryRedirect => Some 307
  | HTTPPermanentRedirect => Some 308
  | HTTPBadRequest => Some 400
  | HTTPUnauthorized => Some 401
  | HTTPPaymentRequired => Some 402
  | HTTPForbidden => Some 403
  | HTTPNotFound => Some 404
  | InvalidRoute => Some 404
  | HTTPMethodNotAllowed => Some 405
  | HTTPNotAcceptable => Some 406
  | HTTPProxyAuthenticationRequired => Some 407
  | HTTPRequestTimeout => Some 408
  | HTTPConflict => Some 409
  | HTTPGone => Some 410
  | HTTPLengthRequired => Some 411
  | HTTPPreconditionFailed => Some 412
  | HTTPRequestEntityTooLarge => Some 413
  | HTTPRequestURITooLong => Some 414
  | HTTPUnsupportedMediaType => Some 415
  | HTTPRequestRangeNotSatisfiable => Some 416
  | HTTPExpectationFailed => Some 417
  | HTTPMisdirectedRequest => Some 421
  | HTTPUnprocessableEntity => Some 422
  | HTTPFailedDependency => Some 424
  | HTTPUpgradeRequired => Some 426
  | HTTPPreconditionRequired => Some 428
  | HTTPTooManyRequests => Some 429
  | HTTPRequestHeaderFieldsTooLarge => Some 431
  | HTTPUnavailableForLegalReasons => Some 451
  | HTTPInternalServerError => Some 500
  | HTTPNotImplemented => Some 501
  | HTTPBadGateway => Some 502
  | HTTPServiceUnavailable => Some 503
  | HTTPGatewayTimeout => Some 504
  | HTTPVersionNotSupported => Some 505
  | HTTPVariantAlsoNegotiates => Some 506
  | HTTPInsufficientStorage => Some 507
  | HTTPNotExtended => Some 510
  | HTTPNetworkAuthenticationRequired => Some 511
  end.

(** The class attribute [empty_body]: [False] on [Response], overridden
    by three classes. *)
Definition empty_body (cls : ResponseClass) : bool :=
  match cls with
  | HTTPNoContent | HTTPResetContent | HTTPNotModified => true
  | _ => false
  end.

(** The class attribute [default_content]: [{}], never overridden. *)
Definition default_content (cls : ResponseClass) : dict := [].

(** The [__init__] that instantiating a class runs: its own or the nearest
    base's. *)
Inductive initializer : Type :=
| InitResponse | InitRawResponse | InitErrorResponse
| InitHTTPMove | InitHTTPMethodNotAllowed | InitHTTPUnavailableForLegalReasons.

Definition init_of (cls : ResponseClass) : initializer :=
  match cls with
  | RawResponse => InitRawResponse
  | ErrorResponse => InitErrorResponse
  | _HTTPMove | HTTPMultipleChoices | HTTPMovedPermanently | HTTPFound
  | HTTPSeeOther | HTTPUseProxy | HTTPTemporaryRedirect
  | HTTPPermanentRedirect => InitHTTPMove
  | HTTPMethodNotAllowed => InitHTTPMethodNotAllowed
  | HTTPUnavailableForLegalReasons => InitHTTPUnavailableForLegalReasons
  | _ => InitResponse
  end.

(** [if self.status_code:] *)
Definition status_truthy (s : option Z) : bool :=
  match s with
  | None => false
  | Some n => negb (Z.eqb n 0)
  end.

(** [status in (204, 205)] *)
Definition no_content_status (status : Z) : bool := Z.eqb status 204 || Z.eqb status 205.

Module Instance.

(** An instance of a class of the family. [status_code] is what
    [self.status_code] evaluates to: the instance attribute once
    [__init__] has set it, the class attribute before. The last four
    attributes exist on the subclasses that set them. *)
Record t : Type := mk {
  cls : ResponseClass;
  content : pyval;
  headers : CIMultiDict;
  status_code : option Z;
  location : option string;
  allowed_methods : option (list string);
  method : option string;
  link : option string
}.

Definition set_content (v : pyval) (r : t) : t :=
  mk (cls r) v (headers r) (status_code r) (location r) (allowed_methods r) (method r) (link r).
Definition set_headers (h : CIMultiDict) (r : t) : t :=
  mk (cls r) (content r) h (status_code r) (location r) (allowed_methods r) (method r) (link r).
Definition set_status_code (s : option Z) (r : t) : t :=
  mk (cls r) (content r) (headers r) s (location r) (allowed_methods r) (method r) (link r).
Definition set_location (l : string) (r : t) : t :=
  mk (cls r) (content r) (headers r) (status_code r) (Some l) (allowed_methods r) (method r) (link r).
Definition set_allowed_methods (l : list string) (r : t) : t :=
  mk (cls r) (content r) (headers r) (status_code r) (location r) (Some l) (method r) (link r).
Definition set_method (m : string) (r : t) : t :=
  mk (cls r) (content r) (headers r) (status_code r) (location r) (allowed_methods r) (Some m) (link r).
Definition set_link (l : string) (r : t) : t :=
  mk (cls r) (content r) (headers r) (status_code r) (location r) (allowed_methods r) (method r) (Some l).

(** The object [__init__] receives: no instance attribute yet, so the
    class attributes show through. *)
Definition blank (c : ResponseClass) : t :=
  mk c PyNone [] (class_status_code c) None None None None.

End Instance.

(** [Response.__init__(self, *, content=None, headers=None, status=None)],
    with [cls] the class of [self]. *)
Definition Response__init__ (cls : ResponseClass) (content : pyval)
    (headers : option (list (string * string))) (status : option Z)
  : result Instance.t :=
  let self := Instance.blank cls in
  let self :=
    if empty_body cls
    then Instance.set_content PyNone self
    else Instance.set_content (py_or content (PyDict (default_content cls))) self in
  let self := Instance.set_headers (CIMultiDict_new headers) self in
  match status with
  | None => Ok self
  | Some st =>
      if status_truthy (Instance.status_code self)
      then Raise (ValueError "Can not customize status code of this type")
      else
        let self := if no_content_status st then Instance.set_content PyNone self else self in
        Ok (Instance.set_status_code (Some st) self)
  end.

(** [RawResponse.__init__(self, *, content=None, headers=None, status=None)] *)
Definition RawResponse__init__ (cls : ResponseClass) (content : pyval)
    (headers : option (list (string * string))) (status : option Z)
  : result Instance.t :=
  let self := Instance.blank cls in
  let self :=
    if empty_body cls
    then Instance.set_content (PyBytes []) self
    else Instance.set_content (py_or content (PyBytes [])) self in
  let self := Instance.set_headers (CIMultiDict_new headers) self in
  Ok (Instance.set_status_code status self).

(** [_HTTPMove.__init__(self, location, *, content=None, headers=None)] *)
Definition _HTTPMove__init__ (cls : ResponseClass) (location : string) (content : pyval)
    (headers : option (list (string * string)))
  : result Instance.t :=
  if negb (truthy (PyStr location))
  then Raise (ValueError "HTTP redirects need a location to redirect to.")
  else
    match Response__init__ cls content headers None with
    | Raise e => Raise e
    | Ok self =>
        let self := Instance.set_headers (md_setitem (Instance.headers self) "Location" location) self in
        Ok (Instance.set_location location self)
    end.

(** [HTTPMethodNotAllowed.__init__(self, method, allowed_methods, *,
    content=None, headers=None)] *)
Definition HTTPMethodNotAllowed__init__ (cls : ResponseClass) (method : string)
    (allowed_methods : list string) (content : pyval)
    (headers : option (list (string * string)))
  : result Instance.t :=
  let allow := join "," (sorted allowed_methods) in
  match Response__init__ cls content headers None with
  | Raise e => Raise e
  | Ok self =>
      let self := Instance.set_headers (md_setitem (Instance.headers self) "Allow" allow) self in
      let self := Instance.set_allowed_methods allowed_methods self in
      Ok (Instance.set_method (upper method) self)
  end.

(** ['<%s>; rel="blocked-by"' % link] *)
Definition blocked_by (link : string) : string :=
  let q := String (ascii_of_nat 34) EmptyString in
  String.append "<" (String.append link (String.append ">; rel="
    (String.append q (String.append "blocked-by" q)))).

(** [HTTPUnavailableForLegalReasons.__init__(self, link, *, content=None,
    headers=None)] *)
Definition HTTPUnavailableForLegalReasons__init__ (cls : ResponseClass) (link : string)
    (content : pyval) (headers : option (list (string * string)))
  : result Instance.t :=
  match Response__init__ cls content headers None with
  | Raise e => Raise e
  | Ok self =>
      let self := Instance.set_headers (md_setitem (Instance.headers self) "Link" (blocked_by link)) self in
      Ok (Instance.set_link link self)
  end.

Section ErrorResponse.

(** [guillotina.exc_resp.render_error_response(type, reason)], which
    returns a dict; its module is not part of these sources. *)
Variable render_error_response : string -> pyval -> dict.

(** [ErrorResponse.__init__(self, type, message, *, reason=None,
    content=None, headers=None, status=500)]; [status] is the value the
    parameter is bound to, 500 when the caller leaves it out. *)
Definition ErrorResponse__init__ (cls : ResponseClass) (type message : string)
    (reason content : pyval) (headers : option (list (string * string)))
    (status : option Z)
  : result Instance.t :=
  let content := match content with PyNone => PyDict [] | _ => content end in
  match content with
  | PyDict d =>
      let d := dict_setitem d "error"
                 (PyDict [("type", PyStr type); ("message", PyStr message)]) in
      let d := match reason with
               | PyNone => d
               | _ => dict_update d (render_error_response type reason)
               end in
      Response__init__ cls (PyDict d) headers status
  | _ => Raise (TypeError "object does not support item assignment")
  end.

(** *** Instantiating a class

    The arguments of a call [cls(...)], by the signature they fit. A
    call whose arguments do not fit the signature of the [__init__] the
    class runs raises [TypeError] before any of its body runs. *)
Inductive arguments : Type :=
| ArgsResponse (content : pyval) (headers : option (list (string * string)))
    (status : option Z)
| ArgsErrorResponse (type message : string) (reason content : pyval)
    (headers : option (list (string * string))) (status : option Z)
| ArgsHTTPMove (location : string) (content : pyval)
    (headers : option (list (string * string)))
| ArgsHTTPMethodNotAllowed (method : string) (allowed_methods : list string)
    (content : pyval) (headers : option (list (string * string)))
| ArgsHTTPUnavailableForLegalReasons (link : string) (content : pyval)
    (headers : option (list (string * string))).

(** The [status] keyword of a call, when the call has one. *)
Definition status_argument (a : arguments) : option Z :=
  match a with
  | ArgsResponse _ _ status => status
  | ArgsErrorResponse _ _ _ _ _ status => status
  | _ => None
  end.

Definition content_argument (a : arguments) : pyval :=
  match a with
  | ArgsResponse c _ _ => c
  | ArgsErrorResponse _ _ _ c _ _ => c
  | ArgsHTTPMove _ c _ => c
  | ArgsHTTPMethodNotAllowed _ _ c _ => c
  | ArgsHTTPUnavailableForLegalReasons _ c _ => c
  end.

Definition construct (cls : ResponseClass) (a : arguments) : result Instance.t :=
  match init_of cls, a with
  | InitResponse, ArgsResponse c h s => Response__init__ cls c h s
  | InitRawResponse, ArgsResponse c h s => RawResponse__init__ cls c h s
  | InitErrorResponse, ArgsErrorResponse ty msg reason c h s =>
      ErrorResponse__init__ cls ty msg reason c h s
  | InitHTTPMove, ArgsHTTPMove loc c h => _HTTPMove__init__ cls loc c h
  | InitHTTPMethodNotAllowed, ArgsHTTPMethodNotAllowed m allowed c h =>
      HTTPMethodNotAllowed__init__ cls m allowed c h
  | InitHTTPUnavailableForLegalReasons, ArgsHTTPUnavailableForLegalReasons l c h =>
      HTTPUnavailableForLegalReasons__init__ cls l c h
  | _, _ => Raise (TypeError "__init__() got unexpected or missing arguments")
  end.

End ErrorResponse.

(** ** The transport

    [send] is the ASGI callable of a request; the messages it is awaited
    with are recorded, oldest first, together with the entries into the
    before-send hook of a request. *)

Definition send_t := nat.

Inductive asgi_message : Type :=
| http_response_start (headers : list (bytes * bytes)) (status : option Z)
| http_response_body (body : bytes) (more_body : bool).

Record Request : Type := mkRequest {
  req_method : string;
  req_path : string;
  req_keep_alive : option bool;
  req_send : send_t
}.

Inductive event : Type :=
| PrepareHook (request : Request)
| Sent (send : send_t) (m : asgi_message).

(** ** [AsgiStreamWriter] *)

Module AsgiStreamWriter.

(** [_buffer] is the [asyncio.Queue]: unbounded, so [put] never waits;
    first in, first out, the head of the list is the next [get]. *)
Record t : Type := mk {
  send : send_t;
  _buffer : list bytes;
  eof : bool
}.

(** Class attributes; no method assigns any of them. *)
Definition buffer_size (self : t) : Z := 0.
Definition output_size (self : t) : Z := 0.
Definition length (self : t) : option Z := Some 0.

Definition __init__ (send : send_t) : t := mk send [] false.

(** A method takes the writer and the log of the transport and returns
    both. *)
Definition write (chunk : bytes) (self : t) (log : list event) : t * list event :=
  (mk (send self) (_buffer self ++ [chunk]) (eof self), log).

(** [while not self._buffer.empty(): body = await self._buffer.get();
    await self.send({...})] *)
Fixpoint drain_loop (send : send_t) (queue : list bytes) (log : list event)
  : list bytes * list event :=
  match queue with
  | [] => ([], log)
  | body :: queue' =>
      drain_loop send queue' (log ++ [Sent send (http_response_body body true)])
  end.

Definition drain (self : t) (log : list event) : t * list event :=
  let '(queue, log) := drain_loop (send self) (_buffer self) log in
  let self := mk (send self) queue (eof self) in
  if eof self
  then (self, log ++ [Sent (send self) (http_response_body [] false)])
  else (self, log).

Definition write_eof (chunk : bytes) (self : t) (log : list event) : t * list event :=
  let '(self, log) := write chunk self log in
  let self := mk (send self) (_buffer self) true in
  drain self log.

(** *** Runs of calls on one writer *)
Inductive call : Type :=
| Write (chunk : bytes)
| WriteEof (chunk : bytes)
| Drain.

Definition step (c : call) (st : t * list event) : t * list event :=
  match c with
  | Write chunk => write chunk (fst st) (snd st)
  | WriteEof chunk => write_eof chunk (fst st) (snd st)
  | Drain => drain (fst st) (snd st)
  end.

Definition run (cs : list call) (st : t * list event) : t * list event :=
  fold_left (fun st c => step c st) cs st.

End AsgiStreamWriter.

(** ** [StreamResponse] *)

Module StreamResponse.

(** A reference to an [AsgiStreamWriter] object. *)
Definition ref := nat.

(** [_body_length] does not exist before [write_eof] assigns it. The
    scratch map [_state] is carried along; no method below reads it. *)
Record t : Type := mk {
  content : pyval;
  headers : CIMultiDict;
  status_code : option Z;
  content_type : option string;
  content_length : option Z;
  _state : gmap string pyval;
  _payload_writer : option ref;
  _eof_sent : bool;
  _keep_alive : option bool;
  _req : option Request;
  _body_length : option Z
}.

Definition set_headers (h : CIMultiDict) (r : t) : t :=
  mk (content r) h (status_code r) (content_type r) (content_length r) (_state r)
     (_payload_writer r) (_eof_sent r) (_keep_alive r) (_req r) (_body_length r).
Definition set__payload_writer (p : option ref) (r : t) : t :=
  mk (content r) (headers r) (status_code r) (content_type r) (content_length r) (_state r)
     p (_eof_sent r) (_keep_alive r) (_req r) (_body_length r).
Definition set__eof_sent (b : bool) (r : t) : t :=
  mk (content r) (headers r) (status_code r) (content_type r) (content_length r) (_state r)
     (_payload_writer r) b (_keep_alive r) (_req r) (_body_length r).
Definition set__keep_alive (k : option bool) (r : t) : t :=
  mk (content r) (headers r) (status_code r) (content_type r) (content_length r) (_state r)
     (_payload_writer r) (_eof_sent r) k (_req r) (_body_length r).
Definition set__req (q : option Request) (r : t) : t :=
  mk (content r) (headers r) (status_code r) (content_type r) (content_length r) (_state r)
     (_payload_writer r) (_eof_sent r) (_keep_alive r) q (_body_length r).
Definition set__body_length (n : option Z) (r : t) : t :=
  mk (content r) (headers r) (status_code r) (content_type r) (content_length r) (_state r)
     (_payload_writer r) (_eof_sent r) (_keep_alive r) (_req r) n.

(** Class attributes. *)
Definition empty_body : bool := false.
Definition default_content : dict := [].

(** [StreamResponse.__init__(self, *, content=None, headers=None,
    status=None)] *)
Definition __init__ (content : pyval) (headers : option (list (string * string)))
    (status : option Z) : result t :=
  let content := if empty_body then PyNone else py_or content (PyDict default_content) in
  let headers := CIMultiDict_new headers in
  match status with
  | None => Raise (ValueError "Status is none")
  | Some st =>
      let content := if no_content_status st then PyNone else content in
      Ok (mk content headers (Some st) None None ∅ None false (Some true) None None)
  end.

(** The property [prepared]. *)
Definition prepared (self : t) : bool :=
  match _payload_writer self with Some _ => true | None => false end.

(** *** The world a method runs in

    The response the methods are called on, the writer objects by
    reference, and the log of the transport. *)
Record World : Type := mkWorld {
  response : t;
  writers : gmap ref AsgiStreamWriter.t;
  trace : list event
}.

(** A computation that reads and writes the world and returns or
    raises; what it did before raising stays done. *)
Definition M (A : Type) : Type := World -> result A * World.

Definition ret {A} (a : A) : M A := fun w => (Ok a, w).
Definition raise {A} (e : exn) : M A := fun w => (Raise e, w).
Definition bind {A B} (m : M A) (k : A -> M B) : M B :=
  fun w =>
    match m w with
    | (Ok a, w') => k a w'
    | (Raise e, w') => (Raise e, w')
    end.

Notation "x <- m ;; k" := (bind m (fun x => k))
  (at level 100, m at next level, right associativity).
Notation "m ;;; k" := (bind m (fun _ => k))
  (at level 100, right associativity).

Definition get_self : M t := fun w => (Ok (response w), w).
Definition update_self (f : t -> t) : M unit :=
  fun w => (Ok tt, mkWorld (f (response w)) (writers w) (trace w)).
(** [await send(m)] *)
Definition await_send (send : send_t) (m : asgi_message) : M unit :=
  fun w => (Ok tt, mkWorld (response w) (writers w) (trace w ++ [Sent send m])).

(** [AsgiStreamWriter(send)]: a new object, at a reference not in use. *)
Definition new_writer (send : send_t) : M ref :=
  fun w =>
    let l := fresh (dom (writers w)) in
    (Ok l, mkWorld (response w) (<[l := AsgiStreamWriter.__init__ send]> (writers w)) (trace w)).

(** A method call on the writer behind a reference. Every reference the
    response holds comes from [new_writer]; for one that does not the
    call raises (no run of calls on a new response gets there, see
    [run_consistent] below). *)
Definition on_writer (l : ref)
    (method : AsgiStreamWriter.t -> list event -> AsgiStreamWriter.t * list event)
  : M unit :=
  fun w =>
    match writers w !! l with
    | Some wr =>
        let '(wr', log) := method wr (trace w) in
        (Ok tt, mkWorld (response w) (<[l := wr']> (writers w)) log)
    | None => (Raise (RuntimeError "no object behind the reference"), w)
    end.

Definition read_writer {A} (l : ref) (attribute : AsgiStreamWriter.t -> A) : M A :=
  fun w =>
    match writers w !! l with
    | Some wr => (Ok (attribute wr), w)
    | None => (Raise (RuntimeError "no object behind the reference"), w)
    end.

Section Collaborators.

(** [request._prepare_hook(response)] of [guillotina.request], which
    may change the response it is given and may raise; and
    [guillotina.asgi.headers_to_list]. Neither module is part of these
    sources. *)
Variable _prepare_hook : Request -> t -> result unit * t.
Variable headers_to_list : CIMultiDict -> list (bytes * bytes).

Definition await_prepare_hook (request : Request) : M unit :=
  fun w =>
    let '(r, self) := _prepare_hook request (response w) in
    (r, mkWorld self (writers w) (trace w ++ [PrepareHook request])).

(** [if self.content_type:] and [if self.content_length:] *)
Definition str_truthy (s : option string) : bool :=
  match s with Some s => truthy (PyStr s) | None => false end.
Definition int_truthy (n : option Z) : bool :=
  match n with Some n => negb (Z.eqb n 0) | None => false end.

Definition _start (request : Request) : M (option ref) :=
  update_self (set__req (Some request)) ;;;
  self <- get_self ;;
  let keep_alive := _keep_alive self in
  let keep_alive :=
    match keep_alive with
    | None => req_keep_alive request
    | Some _ => keep_alive
    end in
  update_self (set__keep_alive keep_alive) ;;;
  writer <- new_writer (req_send request) ;;
  update_self (set__payload_writer (Some writer)) ;;;
  self <- get_self ;;
  let headers := headers self in
  let headers :=
    if str_truthy (content_type self)
    then md_setdefault headers "Content-Type" (default "" (content_type self))
    else md_setdefault headers "Content-Type" "application/octet-stream" in
  let headers :=
    if int_truthy (content_length self)
    then md_setdefault headers "Content-Length" (pretty (default 0 (content_length self)))
    else headers in
  update_self (set_headers headers) ;;;
  await_send (req_send request)
    (http_response_start (headers_to_list headers) (status_code self)) ;;;
  ret (Some writer).

Definition prepare (request : Request) : M (option ref) :=
  self <- get_self ;;
  if _eof_sent self then ret None
  else
    match _payload_writer self with
    | Some writer => ret (Some writer)
    | None =>
        await_prepare_hook request ;;;
        _start request
    end.

(** [data] is bytes by its type, so the [isinstance] assertion
    holds. *)
Definition write (data : bytes) : M unit :=
  self <- get_self ;;
  if _eof_sent self
  then raise (RuntimeError "Cannot call write() after write_eof()")
  else
    match _payload_writer self with
    | None => raise (RuntimeError "Cannot call write() before prepare()")
    | Some writer => on_writer writer (AsgiStreamWriter.write data)
    end.

(** The deprecation warning is not an effect on the response or on
    the transport. *)
Definition drain : M unit :=
  self <- get_self ;;
  if _eof_sent self
  then raise (AssertionError "EOF has already been sent")
  else
    match _payload_writer self with
    | None => raise (AssertionError "Response has not been started")
    | Some writer => on_writer writer AsgiStreamWriter.drain
    end.

Definition write_eof (data : bytes) : M unit :=
  self <- get_self ;;
  if _eof_sent self then ret tt
  else
    match _payload_writer self with
    | None => raise (AssertionError "Response has not been started")
    | Some writer =>
        on_writer writer (AsgiStreamWriter.write_eof data) ;;;
        update_self (set__eof_sent true) ;;;
        update_self (set__req None) ;;;
        output_size <- read_writer writer AsgiStreamWriter.output_size ;;
        update_self (set__body_length (Some output_size)) ;;;
        update_self (set__payload_writer None)
    end.

(** *** Runs of calls on one response

    The caller may catch what a call raises and go on, so a run
    continues after a call that raised. *)
Inductive call : Type :=
| Prepare (request : Request)
| Write (data : bytes)
| Drain
| WriteEof (data : bytes).

Definition step (c : call) (w : World) : World :=
  match c with
  | Prepare request => snd (prepare request w)
  | Write data => snd (write data w)
  | Drain => snd (drain w)
  | WriteEof data => snd (write_eof data w)
  end.

Definition run (cs : list call) (w : World) : World :=
  fold_left (fun w c => step c w) cs w.

End Collaborators.

(** The world right after construction: no writer exists, nothing was
    sent. *)
Definition initial (self : t) : World := mkWorld self ∅ [].

End StreamResponse.

(** ** [ApplicationRoot] *)

Module ApplicationRoot.

(** A database handle: its id and the storage object behind it. *)
Record Database : Type := mkDatabase {
  id : string;
  _db : nat
}.

Record t : Type := mk {
  _dbs : gmap string Database
}.

Definition __contains__ (self : t) (key : string) : bool :=
  match _dbs self !! key with Some _ => true | None => false end.

Definition __len__ (self : t) : nat := size (_dbs self).

(** [self._dbs[key]]: [KeyError] on an absent key. *)
Definition __getitem__ (self : t) (key : string) : result Database :=
  match _dbs self !! key with
  | Some db => Ok db
  | None => Raise (KeyError key)
  end.

(** [try: return self[key] / except KeyError: pass]; falling off the end
    of the body returns [None]. *)
Definition get (self : t) (key : string) : result (option Database) :=
  match __getitem__ self key with
  | Ok db => Ok (Some db)
  | Raise (KeyError _) => Ok None
  | Raise e => Raise e
  end.

Definition __delitem__ (self : t) (key : string) : result t :=
  match _dbs self !! key with
  | Some _ => Ok (mk (delete key (_dbs self)))
  | None => Raise (KeyError key)
  end.

Definition __setitem__ (self : t) (key : string) (value : Database) : t :=
  mk (<[key := value]> (_dbs self)).

(** [return self._dbs[key]]. The result has the type of [get]'s, so that
    the two can be compared; [asyncget] never returns [None]. *)
Definition asyncget (self : t) (key : string) : result (option Database) :=
  match _dbs self !! key with
  | Some db => Ok (Some db)
  | None => Raise (KeyError key)
  end.

End ApplicationRoot.

(** ** What the statements below are phrased with *)

(** A body frame with [more_body=True] carrying [chunk], as [send]
    receives it. *)
Definition body_frame (send : send_t) (chunk : bytes) : event :=
  Sent send (http_response_body chunk true).

(** The closing frame [drain] sends: empty body, [more_body=False]. *)
Definition eof_frame (send : send_t) : event :=
  Sent send (http_response_body [] false).

Definition is_last_frame (e : event) : bool :=
  match e with
  | Sent _ (http_response_body _ false) => true
  | _ => false
  end.

(** How many frames with [more_body=False] a log holds. *)
Definition last_frames (log : list event) : nat :=
  List.length (List.filter is_last_frame log).

Definition is_start_frame (e : event) : bool :=
  match e with
  | Sent _ (http_response_start _ _) => true
  | _ => false
  end.

Definition start_frames (log : list event) : nat :=
  List.length (List.filter is_start_frame log).

(** The number of body bytes a log carries. *)
Fixpoint body_bytes (log : list event) : Z :=
  match log with
  | [] => 0
  | Sent _ (http_response_body body _) :: log' => Z.of_nat (List.length body) + body_bytes log'
  | _ :: log' => body_bytes log'
  end.

(** The frames the specification's sentence on [write]/[write_eof]
    describes: one frame per earlier chunk with [more_body=True], then one
    frame with [more_body=False] that carries [final]. Stated from the
    sentence, to be compared with what the writer sends. *)
Definition frames_as_specified (send : send_t) (chunks : list bytes) (final : bytes)
  : list event :=
  List.map (body_frame send) chunks ++ [Sent send (http_response_body final false)].

Definition is_write_eof (c : AsgiStreamWriter.call) : bool :=
  match c with AsgiStreamWriter.WriteEof _ => true | _ => false end.

Definition is_drain (c : AsgiStreamWriter.call) : bool :=
  match c with AsgiStreamWriter.Drain => true | _ => false end.

Definition count_write_eof (cs : list AsgiStreamWriter.call) : nat :=
  List.length (List.filter is_write_eof cs).

Definition count_drain (cs : list AsgiStreamWriter.call) : nat :=
  List.length (List.filter is_drain cs).

(** The [drain] calls that come after the first [write_eof] of a run. *)
Fixpoint drains_after_eof (cs : list AsgiStreamWriter.call) : nat :=
  match cs with
  | [] => 0%nat
  | AsgiStreamWriter.WriteEof _ :: cs' => count_drain cs'
  | _ :: cs' => drains_after_eof cs'
  end.

(** The [Allow] header of a constructed response. *)
Definition allow_header (r : result Instance.t) : option string :=
  match r with
  | Ok self => md_get (Instance.headers self) "Allow"
  | Raise _ => None
  end.

(** Sample collaborators and inputs, for the concrete runs. *)
Definition sample_render_error_response (type : string) (reason : pyval) : dict :=
  [("reason", reason)].

Definition sample_prepare_hook (request : Request) (self : StreamResponse.t)
  : result unit * StreamResponse.t :=
  (Ok tt, StreamResponse.set_headers
            (md_setitem (StreamResponse.headers self) "X-Hook" (req_path request)) self).

Definition sample_headers_to_list (h : CIMultiDict) : list (bytes * bytes) :=
  List.map (fun kv => (list_byte_of_string (lower (fst kv)), list_byte_of_string (snd kv))) h.

Definition sample_request : Request := mkRequest "GET" "/db/container" None 1%nat.

Definition sample_response : StreamResponse.t :=
  StreamResponse.mk (PyDict []) [] (Some 200) None None ∅ None false (Some true) None None.

Definition abc : bytes := list_byte_of_string "abc".
Definition de : bytes := list_byte_of_string "de".

(** The sample response after [prepare] and two [write]s. *)
Definition sample_world : StreamResponse.World :=
  StreamResponse.run sample_prepare_hook sample_headers_to_list
    [StreamResponse.Prepare sample_request; StreamResponse.Write abc; StreamResponse.Write de]
    (StreamResponse.initial sample_response).

(** The before-send hook leaves alone the two private attributes that
    drive the life cycle (it is there to change headers and status). *)
Definition hook_keeps_life_cycle
    (hook : Request -> StreamResponse.t -> result unit * StreamResponse.t) : Prop :=
  forall request self,
    StreamResponse._payload_writer (snd (hook request self)) = StreamResponse._payload_writer self
    /\ StreamResponse._eof_sent (snd (hook request self)) = StreamResponse._eof_sent self.

(** A response that holds a writer has not sent eof, and the writer
    exists. *)
Definition consistent (w : StreamResponse.World) : Prop :=
  forall writer,
    StreamResponse._payload_writer (StreamResponse.response w) = Some writer ->
    StreamResponse._eof_sent (StreamResponse.response w) = false
    /\ is_Some (StreamResponse.writers w !! writer).

(** The arguments of a call fit the signature of the [__init__] the class
    runs and pass its checks other than the one on [status]: a redirect
    has a non-empty location, the content of an [ErrorResponse] is a dict
    or [None]. *)
Definition fits (cls : ResponseClass) (a : arguments) : bool :=
  match init_of cls, a with
  | InitResponse, ArgsResponse _ _ _ => true
  | InitRawResponse, ArgsResponse _ _ _ => true
  | InitErrorResponse, ArgsErrorResponse _ _ _ c _ _ =>
      match c with PyNone | PyDict _ => true | _ => false end
  | InitHTTPMove, ArgsHTTPMove location _ _ => truthy (PyStr location)
  | InitHTTPMethodNotAllowed, ArgsHTTPMethodNotAllowed _ _ _ _ => true
  | InitHTTPUnavailableForLegalReasons, ArgsHTTPUnavailableForLegalReasons _ _ _ => true
  | _, _ => false
  end.

(** The [Allow] header the specification's example describes: the methods
    upper-cased, sorted and joined. Stated from the sentence, to be
    compared with the header the constructor sets. *)
Definition allow_as_specified (allowed_methods : list string) : string :=
  join "," (sorted (List.map upper allowed_methods)).

(** What [ErrorResponse("Gone", "nothing here", content={"k": "v"},
    status=205)] constructs. *)
Definition sample_error_response : Instance.t :=
  Instance.mk ErrorResponse PyNone [] (Some 205) None None None None.

Definition sample_root : ApplicationRoot.t :=
  ApplicationRoot.mk (<["db" := ApplicationRoot.mkDatabase "db" 0%nat]> ∅).

(** ** More of [response.py] and [content.py] *)

(** *** The scratch map of a [StreamResponse] *)

Definition set__state (m : gmap string pyval) (r : StreamResponse.t) : StreamResponse.t :=
  StreamResponse.mk (StreamResponse.content r) (StreamResponse.headers r)
    (StreamResponse.status_code r) (StreamResponse.content_type r)
    (StreamResponse.content_length r) m (StreamResponse._payload_writer r)
    (StreamResponse._eof_sent r) (StreamResponse._keep_alive r) (StreamResponse._req r)
    (StreamResponse._body_length r).

(** [StreamResponse.__getitem__]: [self._state[key]] *)
Definition StreamResponse__getitem__ (self : StreamResponse.t) (key : string) : result pyval :=
  match StreamResponse._state self !! key with
  | Some v => Ok v
  | None => Raise (KeyError key)
  end.

(** [StreamResponse.__setitem__]: [self._state[key] = value] *)
Definition StreamResponse__setitem__ (self : StreamResponse.t) (key : string) (value : pyval)
  : StreamResponse.t :=
  set__state (<[key := value]> (StreamResponse._state self)) self.

(** [StreamResponse.__delitem__]: [del self._state[key]]; on [KeyError]
    the response is as it was. *)
Definition StreamResponse__delitem__ (self : StreamResponse.t) (key : string)
  : result StreamResponse.t :=
  match StreamResponse._state self !! key with
  | Some _ => Ok (set__state (delete key (StreamResponse._state self)) self)
  | None => Raise (KeyError key)
  end.

(** [StreamResponse.__len__] *)
Definition StreamResponse__len__ (self : StreamResponse.t) : nat :=
  size (StreamResponse._state self).

(** [StreamResponse.__repr__]; the class name is that of
    [StreamResponse], which has no subclass here. *)
Definition StreamResponse__repr__ (self : StreamResponse.t) : result string :=
  if StreamResponse._eof_sent self then Ok "<StreamResponse eof>"
  else if StreamResponse.prepared self then
    match StreamResponse._req self with
    | None => Raise (AssertionError "")
    | Some req =>
        Ok (String.append "<StreamResponse "
              (String.append (String.append (req_method req)
                                (String.append " " (String.append (req_path req) " ")))
                 ">"))
    end
  else Ok "<StreamResponse not prepared>".

(** [RawResponse.body]: the content itself. *)
Definition RawResponse_body (self : Instance.t) : pyval := Instance.content self.

(** *** The async utilities of an [ApplicationRoot] *)

Module AsyncUtilities.

(** The [config] of a utility: a dict with these keys. *)
Record Config : Type := mkConfig {
  provides : string;
  factory : string;
  settings : pyval
}.

(** [{'task': task, 'config': config}]; a task is a reference to an
    [asyncio] future. *)
Record Utility : Type := mkUtility {
  task : nat;
  config : Config
}.

(** The [_async_utilities] of the root and, beside it, the tasks whose
    [cancel()] was called, oldest first. *)
Record t : Type := mk {
  _async_utilities : gmap string Utility;
  cancel_calls : list nat
}.

(** [ApplicationRoot.__init__]: [self._async_utilities = {}] *)
Definition empty : t := mk ∅ [].

Definition add_async_task (self : t) (ident : string) (task : nat) (config : Config)
  : result unit * t :=
  match _async_utilities self !! ident with
  | Some _ => (Raise (KeyError "Already exist an async utility with this id"), self)
  | None =>
      (Ok tt, mk (<[ident := mkUtility task config]> (_async_utilities self))
                 (cancel_calls self))
  end.

Definition cancel_async_utility (self : t) (ident : string) : result unit * t :=
  match _async_utilities self !! ident with
  | Some u => (Ok tt, mk (_async_utilities self) (cancel_calls self ++ [task u]))
  | None => (Raise (KeyError "Ident does not exist as utility"), self)
  end.

Section Components.

(** The calls into [guillotina.utils] and [guillotina.component] that
    [del_async_utility] makes between cancelling and deleting:
    [import_class], [getUtility] and [unregisterUtility] on the interface
    named; they return or raise. Those modules are not part of these
    sources. *)
Variable unregister : string -> result unit.

Definition del_async_utility (self : t) (config : Config) : result unit * t :=
  match cancel_async_utility self (provides config) with
  | (Raise e, self) => (Raise e, self)
  | (Ok _, self) =>
      match unregister (provides config) with
      | Raise e => (Raise e, self)
      | Ok _ =>
          match _async_utilities self !! provides config with
          | Some _ =>
              (Ok tt, mk (delete (provides config) (_async_utilities self))
                         (cancel_calls self))
          | None => (Raise (KeyError (provides config)), self)
          end
      end
  end.

End Components.

End AsyncUtilities.

(** *** What the further statements are phrased with *)

(** The messages a log holds, in the order they were sent. *)
Fixpoint messages (log : list event) : list asgi_message :=
  match log with
  | [] => []
  | Sent _ m :: log' => m :: messages log'
  | PrepareHook _ :: log' => messages log'
  end.

(** The bodies of the frames with [more_body=True] in a log, in order. *)
Fixpoint sent_chunks (log : list event) : list bytes :=
  match log with
  | [] => []
  | Sent _ (http_response_body body true) :: log' => body :: sent_chunks log'
  | _ :: log' => sent_chunks log'
  end.

(** The chunks a run of calls hands to the writer, in call order. *)
Fixpoint written_chunks (cs : list AsgiStreamWriter.call) : list bytes :=
  match cs with
  | [] => []
  | AsgiStreamWriter.Write chunk :: cs' => chunk :: written_chunks cs'
  | AsgiStreamWriter.WriteEof chunk :: cs' => chunk :: written_chunks cs'
  | AsgiStreamWriter.Drain :: cs' => written_chunks cs'
  end.

(** An event a writer bound to [send] may log: a body frame on [send],
    empty when [more_body] is [False]. *)
Definition writer_event (send : send_t) (e : event) : Prop :=
  match e with
  | Sent s (http_response_body body more_body) =>
      s = send /\ (more_body = false -> body = [])
  | _ => False
  end.

Definition more_body_frame (body : bytes) : asgi_message := http_response_body body true.

(** How many entries of a multidict have the key. *)
Definition md_count (md : CIMultiDict) (key : string) : nat :=
  List.length (List.filter (fun kv => same_key (fst kv) key) md).

(** [d.get(k)] on a dict. *)
Fixpoint dict_get (d : dict) (k : string) : option pyval :=
  match d with
  | [] => None
  | (k', v) :: d' => if String.eqb k' k then Some v else dict_get d' k
  end.

(** The [Content-Type] a start frame goes out with when the headers hold
    none: the attribute if it is set and not empty, else the default. *)
Definition effective_content_type (self : StreamResponse.t) : string :=
  match StreamResponse.content_type self with
  | Some ct => if String.eqb ct "" then "application/octet-stream" else ct
  | None => "application/octet-stream"
  end.

(** What the transport has seen of a response, by the state the
    response is in. Closed: the writer is released and the messages are
    one start frame, then frames with [more_body=True], then one empty
    frame with [more_body=False]. Prepared: the writer exists with [eof]
    unset, the request is kept, and the messages are one start frame,
    then frames with [more_body=True]. Not started: no message. *)
Definition stream_invariant (w : StreamResponse.World) : Prop :=
  if StreamResponse._eof_sent (StreamResponse.response w) then
    StreamResponse._payload_writer (StreamResponse.response w) = None
    /\ exists headers status bodies,
         messages (StreamResponse.trace w)
         = http_response_start headers status
             :: List.map more_body_frame bodies ++ [http_response_body [] false]
  else
    match StreamResponse._payload_writer (StreamResponse.response w) with
    | None => messages (StreamResponse.trace w) = []
    | Some writer =>
        (exists wr, StreamResponse.writers w !! writer = Some wr
                    /\ AsgiStreamWriter.eof wr = false)
        /\ is_Some (StreamResponse._req (StreamResponse.response w))
        /\ exists headers status bodies,
             messages (StreamResponse.trace w)
             = http_response_start headers status :: List.map more_body_frame bodies
    end.

Definition sample_failing_hook (request : Request) (self : StreamResponse.t)
  : result unit * StreamResponse.t :=
  (Raise (RuntimeError "hook failed"), self).

Definition sample_config : AsyncUtilities.Config :=
  AsyncUtilities.mkConfig "guillotina.interfaces.IQueueUtility"
    "guillotina.async_util.QueueUtility" PyNone.

Definition sample_unregister (interface : string) : result unit := Ok tt.

(** * Properties *)

(** ** The writer *)

Section Writer.

Import AsgiStreamWriter.

Lemma drain_loop_sends send queue log :
  drain_loop send queue log = ([], log ++ List.map (body_frame send) queue).
Proof.
  revert log. induction queue as [|body queue IH]; intros log; simpl.
  - by rewrite app_nil_r.
  - rewrite IH. by rewrite <- app_assoc.
Qed.

Lemma drain_sends self log :
  drain self log =
    (mk (send self) [] (eof self),
     log ++ List.map (body_frame (send self)) (_buffer self)
         ++ (if eof self then [eof_frame (send self)] else [])).
Proof.
  unfold drain. rewrite drain_loop_sends. simpl.
  destruct (eof self); simpl.
  - by rewrite <- app_assoc.
  - by rewrite app_nil_r.
Qed.

Lemma write_eof_sends chunk self log :
  write_eof chunk self log =
    (mk (send self) [] true,
     log ++ List.map (body_frame (send self)) (_buffer self ++ [chunk])
         ++ [eof_frame (send self)]).
Proof. unfold write_eof, write. by rewrite drain_sends. Qed.

Lemma run_app cs1 cs2 st : run (cs1 ++ cs2) st = run cs2 (run cs1 st).
Proof. unfold run. apply fold_left_app. Qed.

Lemma run_writes chunks self log :
  run (List.map Write chunks) (self, log) =
    (mk (send self) (_buffer self ++ chunks) (eof self), log).
Proof.
  revert self. induction chunks as [|c chunks IH]; intros self.
  - destruct self; simpl. by rewrite app_nil_r.
  - simpl. unfold run in IH. unfold write at 1; simpl. rewrite IH; simpl.
    by rewrite <- app_assoc.
Qed.

Lemma last_frames_app l1 l2 : last_frames (l1 ++ l2) = (last_frames l1 + last_frames l2)%nat.
Proof. unfold last_frames. by rewrite List.filter_app, List.length_app. Qed.

Lemma last_frames_body_frames send chunks :
  last_frames (List.map (body_frame send) chunks) = 0%nat.
Proof. induction chunks; [done | exact IHchunks]. Qed.

(** Once [eof] is set, every [drain] sends one more closing frame and
    a [write] none. *)
Lemma last_frames_after_eof cs : forall self log,
  eof self = true -> count_write_eof cs = 0%nat ->
  last_frames (snd (run cs (self, log))) = (last_frames log + count_drain cs)%nat.
Proof.
  induction cs as [|c cs IH]; intros self log Heof Hcount.
  - unfold count_drain. simpl. lia.
  - destruct c as [chunk|chunk|]; simpl in *.
    + unfold run in IH. unfold write. simpl. by apply IH.
    + discriminate Hcount.
    + unfold run in IH. rewrite drain_sends, Heof. simpl.
      rewrite IH by done.
      rewrite !last_frames_app, last_frames_body_frames.
      unfold count_drain. simpl. unfold last_frames at 2. simpl. lia.
Qed.

(** Before [write_eof], no frame with [more_body=False] is sent. *)
Lemma last_frames_one_eof cs : forall self log,
  eof self = false -> count_write_eof cs = 1%nat ->
  last_frames (snd (run cs (self, log))) = (last_frames log + 1 + drains_after_eof cs)%nat.
Proof.
  induction cs as [|c cs IH]; intros self log Heof Hcount.
  - discriminate Hcount.
  - destruct c as [chunk|chunk|]; simpl in *.
    + unfold run in IH. unfold write. simpl. by apply IH.
    + unfold run. simpl. rewrite write_eof_sends.
      pose proof (last_frames_after_eof cs (mk (send self) [] true)) as Hafter.
      unfold run in Hafter. rewrite Hafter; [| done | unfold count_write_eof in *; simpl in *; lia].
      rewrite !last_frames_app, last_frames_body_frames.
      unfold last_frames at 2. simpl. lia.
    + unfold run in IH. rewrite drain_sends, Heof. simpl.
      rewrite IH by done.
      rewrite !last_frames_app, last_frames_body_frames.
      unfold last_frames at 2. simpl. lia.
Qed.

End Writer.

(** C1, as amended. After [write(chunk_1)] ... [write(chunk_n)] and
    [write_eof(final)] on a new writer the transport has received, in
    this order and nothing else: one frame with [more_body=True] per
    chunk, in the order of the [write] calls; one more frame with
    [more_body=True] that carries [final] (empty when [final] is left
    out); and one frame with [more_body=False] whose body is empty. The
    writer is left with an empty queue and [eof] set. *)
Theorem write_eof_transmits (send : send_t) (chunks : list bytes) (final : bytes) :
  AsgiStreamWriter.run
    (List.map AsgiStreamWriter.Write chunks ++ [AsgiStreamWriter.WriteEof final])
    (AsgiStreamWriter.__init__ send, []) =
  (AsgiStreamWriter.mk send [] true,
   List.map (body_frame send) chunks ++ [body_frame send final; eof_frame send]).
Proof.
  rewrite run_app, run_writes. simpl.
  rewrite write_eof_sends. simpl.
  rewrite List.map_app. simpl. by rewrite <- app_assoc.
Qed.

(** C1 as the specification states it fails: with one chunk and a final
    chunk, and with neither, the frames sent are not the specified ones
    (the final chunk travels with [more_body=True] and the closing frame
    is a frame of its own). *)
Lemma write_eof_frames_not_as_specified :
  snd (AsgiStreamWriter.run
         [AsgiStreamWriter.Write abc; AsgiStreamWriter.WriteEof de]
         (AsgiStreamWriter.__init__ 1%nat, []))
    <> frames_as_specified 1%nat [abc] de
  /\ snd (AsgiStreamWriter.run [AsgiStreamWriter.WriteEof []]
            (AsgiStreamWriter.__init__ 1%nat, []))
    <> frames_as_specified 1%nat [] [].
Proof. split; vm_compute; discriminate. Qed.

(** C2, as amended. In a run of [write], [write_eof] and [drain] calls
    on a new writer that holds exactly one [write_eof], the number of
    frames with [more_body=False] sent is one plus the number of [drain]
    calls made after the [write_eof]: exactly one when no [drain]
    follows, and each [drain] after [write_eof] sends one further frame,
    the closing frame again. *)
Theorem last_frames_of_run (send : send_t) (cs : list AsgiStreamWriter.call) :
  (count_write_eof cs = 1%nat ->
   last_frames (snd (AsgiStreamWriter.run cs (AsgiStreamWriter.__init__ send, [])))
     = (1 + drains_after_eof cs)%nat)
  /\ (forall chunk self log,
        let st := AsgiStreamWriter.write_eof chunk self log in
        AsgiStreamWriter.drain (fst st) (snd st)
          = (fst st, snd st ++ [eof_frame (AsgiStreamWriter.send self)])).
Proof.
  split.
  - intros Hone. by rewrite last_frames_one_eof.
  - intros chunk self log st. subst st.
    rewrite write_eof_sends. simpl. by rewrite drain_sends.
Qed.

Lemma last_frames_of_run_witness :
  last_frames (snd (AsgiStreamWriter.run
                      [AsgiStreamWriter.Write abc; AsgiStreamWriter.Drain;
                       AsgiStreamWriter.WriteEof de; AsgiStreamWriter.Write abc;
                       AsgiStreamWriter.Drain; AsgiStreamWriter.Drain]
                      (AsgiStreamWriter.__init__ 1%nat, []))) = 3%nat.
Proof.
  apply (proj1 (last_frames_of_run 1%nat
                  [AsgiStreamWriter.Write abc; AsgiStreamWriter.Drain;
                   AsgiStreamWriter.WriteEof de; AsgiStreamWriter.Write abc;
                   AsgiStreamWriter.Drain; AsgiStreamWriter.Drain])).
  reflexivity.
Defined.

(** C2 as the specification states it fails: [write_eof] followed by
    [drain] sends two frames with [more_body=False]. *)
Lemma drain_after_eof_sends_again :
  ~ (count_write_eof [AsgiStreamWriter.Write abc; AsgiStreamWriter.WriteEof de;
                      AsgiStreamWriter.Drain] = 1%nat ->
     (last_frames (snd (AsgiStreamWriter.run
                          [AsgiStreamWriter.Write abc; AsgiStreamWriter.WriteEof de;
                           AsgiStreamWriter.Drain]
                          (AsgiStreamWriter.__init__ 1%nat, []))) <= 1)%nat).
Proof. intros H. specialize (H eq_refl). vm_compute in H. lia. Qed.

(** ** The streaming response *)

Section Stream.

Import StreamResponse.

Variable _prepare_hook : Request -> t -> result unit * t.
Variable headers_to_list : CIMultiDict -> list (bytes * bytes).

#[local] Abbreviation prepare := (prepare _prepare_hook headers_to_list).
#[local] Abbreviation step := (step _prepare_hook headers_to_list).
#[local] Abbreviation run := (run _prepare_hook headers_to_list).

Lemma prepare_when_closed request w :
  _eof_sent (response w) = true -> prepare request w = (Ok None, w).
Proof. intros Heof. unfold StreamResponse.prepare, bind, get_self. by rewrite Heof. Qed.

Lemma prepare_when_prepared request w writer :
  _eof_sent (response w) = false -> _payload_writer (response w) = Some writer ->
  prepare request w = (Ok (Some writer), w).
Proof.
  intros Heof Hwriter. unfold StreamResponse.prepare, bind, get_self.
  by rewrite Heof, Hwriter.
Qed.

Lemma write_when_closed data w :
  _eof_sent (response w) = true ->
  write data w = (Raise (RuntimeError "Cannot call write() after write_eof()"), w).
Proof. intros Heof. unfold write, bind, get_self. by rewrite Heof. Qed.

Lemma write_when_not_started data w :
  _eof_sent (response w) = false -> _payload_writer (response w) = None ->
  write data w = (Raise (RuntimeError "Cannot call write() before prepare()"), w).
Proof. intros Heof Hwriter. unfold write, bind, get_self. by rewrite Heof, Hwriter. Qed.

Lemma drain_when_closed w :
  _eof_sent (response w) = true ->
  drain w = (Raise (AssertionError "EOF has already been sent"), w).
Proof. intros Heof. unfold drain, bind, get_self. by rewrite Heof. Qed.

Lemma write_eof_when_closed data w :
  _eof_sent (response w) = true -> write_eof data w = (Ok tt, w).
Proof. intros Heof. unfold write_eof, bind, get_self. by rewrite Heof. Qed.

(** What a [write_eof] that returns has done to a response that was not
    closed. *)
Lemma write_eof_returns data w w' :
  _eof_sent (response w) = false ->
  write_eof data w = (Ok tt, w') ->
  exists writer wr,
    _payload_writer (response w) = Some writer /\
    writers w !! writer = Some wr /\
    w' = mkWorld
           (set__payload_writer None
              (set__body_length (Some 0)
                 (set__req None (set__eof_sent true (response w)))))
           (<[writer := AsgiStreamWriter.mk (AsgiStreamWriter.send wr) [] true]> (writers w))
           (trace w
              ++ List.map (body_frame (AsgiStreamWriter.send wr))
                   (AsgiStreamWriter._buffer wr ++ [data])
              ++ [eof_frame (AsgiStreamWriter.send wr)]).
Proof.
  intros Heof. unfold write_eof, bind, get_self. rewrite Heof.
  destruct (_payload_writer (response w)) as [writer|] eqn:Hwriter; [|discriminate].
  unfold on_writer. destruct (writers w !! writer) as [wr|] eqn:Hwr; [|discriminate].
  rewrite write_eof_sends. unfold update_self, read_writer. simpl.
  rewrite lookup_insert_eq. simpl. intros [= <-].
  by exists writer, wr.
Qed.

(** A [write_eof] on a prepared response whose writer exists returns. *)
Lemma write_eof_on_prepared data w writer wr :
  _eof_sent (response w) = false ->
  _payload_writer (response w) = Some writer ->
  writers w !! writer = Some wr ->
  exists w', write_eof data w = (Ok tt, w').
Proof.
  intros Heof Hwriter Hwr. unfold write_eof, bind, get_self. rewrite Heof, Hwriter.
  unfold on_writer. rewrite Hwr, write_eof_sends.
  unfold update_self, read_writer. simpl. rewrite lookup_insert_eq. eauto.
Qed.

Lemma write_eof_closes data w w' :
  write_eof data w = (Ok tt, w') -> _eof_sent (response w') = true.
Proof.
  intros Hret. destruct (_eof_sent (response w)) eqn:Heof.
  - rewrite write_eof_when_closed in Hret by done. by inversion Hret; subst.
  - destruct (write_eof_returns _ _ _ Heof Hret) as (writer & wr & _ & _ & ->). done.
Qed.

(** A closed response is inert: no call changes the world. *)
Lemma step_when_closed c w : _eof_sent (response w) = true -> step c w = w.
Proof.
  intros Heof. destruct c; simpl.
  - by rewrite prepare_when_closed.
  - by rewrite write_when_closed.
  - by rewrite drain_when_closed.
  - by rewrite write_eof_when_closed.
Qed.

Lemma run_when_closed cs w : _eof_sent (response w) = true -> run cs w = w.
Proof.
  revert w. induction cs as [|c cs IH]; intros w Heof; [done|].
  simpl. rewrite step_when_closed by done. by apply IH.
Qed.

(** The first [prepare] of a response: the hook runs, a writer is made,
    the start frame is sent. *)
Lemma prepare_starts request w self' :
  _eof_sent (response w) = false -> _payload_writer (response w) = None ->
  _prepare_hook request (response w) = (Ok tt, self') ->
  exists w',
    prepare request w = (Ok (Some (fresh (dom (writers w)))), w') /\
    _payload_writer (response w') = Some (fresh (dom (writers w))) /\
    _eof_sent (response w') = _eof_sent self' /\
    writers w' = <[fresh (dom (writers w)) := AsgiStreamWriter.__init__ (req_send request)]> (writers w) /\
    exists headers,
      trace w' = trace w ++ [PrepareHook request;
                             Sent (req_send request)
                               (http_response_start (headers_to_list headers) (status_code self'))].
Proof.
  intros Heof Hwriter Hhook.
  unfold StreamResponse.prepare, bind, get_self. rewrite Heof, Hwriter.
  unfold await_prepare_hook. rewrite Hhook.
  unfold _start, bind, update_self, get_self, new_writer, await_send, ret. simpl.
  eexists. split; [reflexivity|]. simpl.
  repeat split. eexists. by rewrite <- app_assoc.
Qed.

(** Every call keeps the world consistent, whether it returns or
    raises. *)
Lemma step_consistent c w :
  hook_keeps_life_cycle _prepare_hook -> consistent w -> consistent (step c w).
Proof.
  intros Hhook Hw. destruct c as [request|data| |data]; simpl.
  - unfold StreamResponse.prepare, bind, get_self.
    destruct (_eof_sent (response w)) eqn:Heof; [done|].
    destruct (_payload_writer (response w)) as [writer|] eqn:Hwriter; [done|].
    unfold await_prepare_hook.
    destruct (Hhook request (response w)) as [Hkeep_writer Hkeep_eof].
    destruct (_prepare_hook request (response w)) as [[[]|e] self']; simpl in *.
    + unfold _start, bind, update_self, get_self, new_writer, await_send, ret. simpl.
      intros writer [= <-]. split; [simpl; congruence|]. simpl. by rewrite lookup_insert_eq.
    + intros writer Hsome. simpl in Hsome. congruence.
  - unfold write, bind, get_self.
    destruct (_eof_sent (response w)) eqn:Heof; [done|].
    destruct (_payload_writer (response w)) as [writer|] eqn:Hwriter; [|done].
    unfold on_writer. destruct (writers w !! writer) as [wr|] eqn:Hwr; [|done].
    unfold AsgiStreamWriter.write. simpl. intros writer' Hsome. simpl in Hsome.
    assert (writer' = writer) as -> by congruence.
    split; [done|]. simpl. by rewrite lookup_insert_eq.
  - unfold drain, bind, get_self.
    destruct (_eof_sent (response w)) eqn:Heof; [done|].
    destruct (_payload_writer (response w)) as [writer|] eqn:Hwriter; [|done].
    unfold on_writer. destruct (writers w !! writer) as [wr|] eqn:Hwr; [|done].
    rewrite drain_sends. simpl. intros writer' Hsome. simpl in Hsome.
    assert (writer' = writer) as -> by congruence.
    split; [done|]. simpl. by rewrite lookup_insert_eq.
  - unfold write_eof, bind, get_self.
    destruct (_eof_sent (response w)) eqn:Heof; [done|].
    destruct (_payload_writer (response w)) as [writer|] eqn:Hwriter; [|done].
    unfold on_writer. destruct (writers w !! writer) as [wr|] eqn:Hwr; [|done].
    rewrite write_eof_sends. unfold update_self, read_writer. simpl.
    rewrite lookup_insert_eq. simpl. intros writer' [=].
Qed.

Lemma run_consistent cs w :
  hook_keeps_life_cycle _prepare_hook -> consistent w -> consistent (run cs w).
Proof.
  intros Hhook. revert w. induction cs as [|c cs IH]; intros w Hw; [done|].
  simpl. apply IH. by apply step_consistent.
Qed.

Lemma initial_consistent content headers status self :
  __init__ content headers status = Ok self -> consistent (initial self).
Proof.
  unfold __init__. destruct status; [|discriminate]. intros [= <-] writer [=].
Qed.

End Stream.

Lemma start_frames_app l1 l2 : start_frames (l1 ++ l2) = (start_frames l1 + start_frames l2)%nat.
Proof. unfold start_frames. by rewrite List.filter_app, List.length_app. Qed.

Section StreamLifeCycle.

Import StreamResponse.

Variable _prepare_hook : Request -> t -> result unit * t.
Variable headers_to_list : CIMultiDict -> list (bytes * bytes).

#[local] Abbreviation prepare := (prepare _prepare_hook headers_to_list).
#[local] Abbreviation run := (run _prepare_hook headers_to_list).

(** C3. On a response that is prepared (it has a writer and has not sent
    eof), [prepare] returns that writer and leaves the world as it was:
    the hook is not entered and no frame is sent. On a response that a
    [write_eof] has closed, [prepare] returns [None] and leaves the world
    as it was. A second [prepare] after a first one that ran the hook and
    started the response returns the writer of the first, with one start
    frame sent in all. And after any run of calls on a new response, if
    the response holds a writer then [prepare] returns it and changes
    nothing (with a hook that keeps to headers and status, a response
    that holds a writer has not sent eof). *)
Theorem prepare_again (request : Request) (w : World) :
  (forall writer,
     _eof_sent (response w) = false -> _payload_writer (response w) = Some writer ->
     prepare request w = (Ok (Some writer), w))
  /\ (forall data w0,
        write_eof data w0 = (Ok tt, w) -> prepare request w = (Ok None, w))
  /\ (forall request0 self',
        _eof_sent (response w) = false -> _payload_writer (response w) = None ->
        _prepare_hook request0 (response w) = (Ok tt, self') -> _eof_sent self' = false ->
        exists writer w1,
          prepare request0 w = (Ok (Some writer), w1)
          /\ prepare request w1 = (Ok (Some writer), w1)
          /\ start_frames (trace w1) = S (start_frames (trace w)))
  /\ (forall content headers status self cs writer,
        hook_keeps_life_cycle _prepare_hook ->
        __init__ content headers status = Ok self ->
        _payload_writer (response (run cs (initial self))) = Some writer ->
        prepare request (run cs (initial self))
          = (Ok (Some writer), run cs (initial self))).
Proof.
  split; [|split; [|split]].
  - intros writer Heof Hwriter. by apply prepare_when_prepared.
  - intros data w0 Hret. apply prepare_when_closed. by eapply write_eof_closes.
  - intros request0 self' Heof Hwriter Hhook Heof'.
    destruct (prepare_starts _prepare_hook headers_to_list request0 w self' Heof Hwriter Hhook)
      as (w1 & Hfirst & Hwriter1 & Heof1 & _ & headers & Htrace).
    exists (fresh (dom (writers w))), w1. split; [done|]. split.
    + apply prepare_when_prepared; [congruence | done].
    + rewrite Htrace, start_frames_app. unfold start_frames at 2. simpl. lia.
  - intros content headers status self cs writer Hhook Hinit Hwriter.
    apply prepare_when_prepared; [|done].
    eapply (run_consistent _prepare_hook headers_to_list); eauto using initial_consistent.
Qed.

(** C4. [write] on a response that was never prepared raises
    [RuntimeError] and changes nothing, so no frame is sent; that holds
    for every response as [__init__] returns it. On a response that a
    [write_eof] has closed, [write] raises [RuntimeError] and changes
    nothing, and [write_eof] returns at once: no exception, the same
    world, no frame. *)
Theorem write_outside_prepared (data : bytes) (w : World) :
  (_eof_sent (response w) = false -> _payload_writer (response w) = None ->
   write data w = (Raise (RuntimeError "Cannot call write() before prepare()"), w))
  /\ (forall content headers status self,
        __init__ content headers status = Ok self ->
        write data (initial self)
          = (Raise (RuntimeError "Cannot call write() before prepare()"), initial self))
  /\ (forall data0 w0,
        write_eof data0 w0 = (Ok tt, w) ->
        write data w = (Raise (RuntimeError "Cannot call write() after write_eof()"), w)
        /\ write_eof data w = (Ok tt, w)).
Proof.
  split; [|split].
  - apply write_when_not_started.
  - intros content headers status self Hinit. apply write_when_not_started.
    + unfold __init__ in Hinit. destruct status; [|discriminate]. by inversion Hinit.
    + unfold __init__ in Hinit. destruct status; [|discriminate]. by inversion Hinit.
  - intros data0 w0 Hret. apply write_eof_closes in Hret. split.
    + by apply write_when_closed.
    + by apply write_eof_when_closed.
Qed.

(** C6, as amended. After a [write_eof] that returns on a response that
    was not closed, the recorded body length is the writer's
    [output_size], which is 0 whatever was written (no method of the
    writer counts bytes); the request reference and the writer are
    released and the response is closed, so that no later [prepare],
    [write], [drain] or [write_eof] on the response changes anything or
    sends a frame. *)
Theorem write_eof_releases (data : bytes) (w w' : World) :
  _eof_sent (response w) = false ->
  write_eof data w = (Ok tt, w') ->
  _body_length (response w') = Some 0
  /\ _req (response w') = None
  /\ _payload_writer (response w') = None
  /\ _eof_sent (response w') = true
  /\ forall cs, run cs w' = w'.
Proof.
  intros Heof Hret.
  destruct (write_eof_returns _ _ _ Heof Hret) as (writer & wr & _ & _ & ->).
  repeat split. intros cs. by apply run_when_closed.
Qed.

End StreamLifeCycle.

Lemma prepare_again_witness :
  StreamResponse.prepare sample_prepare_hook sample_headers_to_list sample_request sample_world
    = (Ok (Some 0%nat), sample_world).
Proof.
  apply (proj1 (prepare_again sample_prepare_hook sample_headers_to_list
                  sample_request sample_world)); reflexivity.
Defined.

Lemma write_outside_prepared_witness :
  StreamResponse.write abc (StreamResponse.initial sample_response)
    = (Raise (RuntimeError "Cannot call write() before prepare()"),
       StreamResponse.initial sample_response).
Proof.
  apply (proj1 (write_outside_prepared abc (StreamResponse.initial sample_response)));
    reflexivity.
Defined.

Lemma write_eof_releases_witness :
  StreamResponse._body_length
    (StreamResponse.response (snd (StreamResponse.write_eof [] sample_world))) = Some 0.
Proof.
  apply (write_eof_releases sample_prepare_hook sample_headers_to_list []
           sample_world (snd (StreamResponse.write_eof [] sample_world))).
  - reflexivity.
  - vm_compute. reflexivity.
Defined.

(** C6 as the specification states it fails: [write_eof] returns, five
    body bytes were sent, and the recorded length is not five. *)
Lemma body_length_not_bytes_sent :
  fst (StreamResponse.write_eof [] sample_world) = Ok tt
  /\ body_bytes (StreamResponse.trace (snd (StreamResponse.write_eof [] sample_world))) = 5
  /\ StreamResponse._body_length
       (StreamResponse.response (snd (StreamResponse.write_eof [] sample_world)))
     <> Some (body_bytes (StreamResponse.trace (snd (StreamResponse.write_eof [] sample_world)))).
Proof.
  split; [vm_compute; reflexivity|].
  split; [vm_compute; reflexivity|].
  vm_compute. discriminate.
Qed.

(** C10. Without a status, [StreamResponse.__init__] raises
    [ValueError]; with one it returns; and whenever it returns, the
    instance carries the status it was given. *)
Theorem stream_response_requires_status (content : pyval)
    (headers : option (list (string * string))) :
  StreamResponse.__init__ content headers None = Raise (ValueError "Status is none")
  /\ (forall st, exists self, StreamResponse.__init__ content headers (Some st) = Ok self)
  /\ (forall status self,
        StreamResponse.__init__ content headers status = Ok self ->
        exists st, status = Some st /\ StreamResponse.status_code self = Some st).
Proof.
  split; [done|]. split.
  - intros st. unfold StreamResponse.__init__. eauto.
  - intros [st|] self Hinit; [|discriminate].
    exists st. split; [done|]. unfold StreamResponse.__init__ in Hinit. by inversion Hinit.
Qed.

Lemma stream_response_requires_status_witness :
  exists st, Some 200 = Some st /\ StreamResponse.status_code sample_response = Some st.
Proof.
  apply (proj2 (proj2 (stream_response_requires_status PyNone None)) (Some 200) sample_response).
  reflexivity.
Defined.

(** ** The application root *)

(** C7, as amended. For a key absent from the registry, [get] returns
    [None] and [asyncget] raises [KeyError]; for a key that is present
    both return its database. *)
Theorem root_lookup (self : ApplicationRoot.t) (key : string) :
  (ApplicationRoot._dbs self !! key = None ->
   ApplicationRoot.get self key = Ok None
   /\ ApplicationRoot.asyncget self key = Raise (KeyError key))
  /\ (forall db, ApplicationRoot._dbs self !! key = Some db ->
      ApplicationRoot.get self key = Ok (Some db)
      /\ ApplicationRoot.asyncget self key = Ok (Some db)).
Proof.
  unfold ApplicationRoot.get, ApplicationRoot.__getitem__, ApplicationRoot.asyncget.
  split.
  - intros Habsent. by rewrite Habsent.
  - intros db Hpresent. by rewrite Hpresent.
Qed.

Lemma root_lookup_witness :
  ApplicationRoot.get sample_root "other" = Ok None
  /\ ApplicationRoot.asyncget sample_root "other" = Raise (KeyError "other").
Proof. apply (proj1 (root_lookup sample_root "other")). reflexivity. Defined.

(** C7 as the specification states it fails: on an absent key [asyncget]
    does not return [None]. *)
Lemma asyncget_absent_raises :
  ApplicationRoot._dbs sample_root !! "other" = None
  /\ ApplicationRoot.asyncget sample_root "other" <> Ok None.
Proof. split; [reflexivity | vm_compute; discriminate]. Qed.

(** ** The materialized responses *)

Lemma same_key_refl k : same_key k k = true.
Proof. unfold same_key. apply String.eqb_refl. Qed.

Lemma md_get_setitem md key value : md_get (md_setitem md key value) key = Some value.
Proof.
  induction md as [|[k v] md IH]; simpl.
  - by rewrite same_key_refl.
  - destruct (same_key k key) eqn:Hk; simpl.
    + by rewrite same_key_refl.
    + by rewrite Hk.
Qed.

#[local] Instance str_le_total : Total str_le.
Proof. intros a b. apply String.leb_total. Qed.

Lemma sorted_Sorted l : Sorted str_le (sorted l).
Proof. apply Sorted_merge_sort, _. Qed.

Lemma sorted_Permutation l : sorted l ≡ₚ l.
Proof. apply merge_sort_Permutation. Qed.

Lemma class_status_code_truthy cls c :
  class_status_code cls = Some c -> status_truthy (class_status_code cls) = true.
Proof. destruct cls; simpl; intros [= <-]; reflexivity. Qed.

(** What [Response.__init__] returns without a status argument. *)
Lemma Response__init__default cls content headers :
  Response__init__ cls content headers None =
    Ok (Instance.mk cls
          (if empty_body cls then PyNone else py_or content (PyDict (default_content cls)))
          (CIMultiDict_new headers) (class_status_code cls) None None None None).
Proof. unfold Response__init__. by destruct (empty_body cls). Qed.

Lemma Response__init__fixed cls content headers c s :
  class_status_code cls = Some c ->
  Response__init__ cls content headers (Some s)
    = Raise (ValueError "Can not customize status code of this type").
Proof.
  intros Hc. apply class_status_code_truthy in Hc.
  unfold Response__init__. destruct (empty_body cls); simpl; by rewrite Hc.
Qed.

(** [Response.__init__] leaves no content under a status of 204 or 205. *)
Lemma Response__init__no_content cls content headers status self n :
  Response__init__ cls content headers status = Ok self ->
  Instance.status_code self = Some n -> no_content_status n = true ->
  Instance.content self = PyNone.
Proof.
  destruct status as [st|].
  - unfold Response__init__.
    destruct (status_truthy _); [discriminate|].
    intros [= <-]. simpl. intros [= ->] Hn. rewrite Hn. by destruct (empty_body cls).
  - rewrite Response__init__default. intros [= <-]. simpl. intros Hcls Hn.
    destruct cls; simpl in Hcls; try discriminate; injection Hcls as <-;
      try reflexivity; discriminate Hn.
Qed.

Section Family.

Variable render_error_response : string -> pyval -> dict.

#[local] Abbreviation new := (construct render_error_response).

(** C5, as amended. [HTTPMethodNotAllowed(method, allowed_methods)]
    returns a 405 response whose [Allow] header is the allowed methods,
    as given (no change of case), sorted in the order of [str] and joined
    with commas; only [method] is upper-cased. *)
Theorem allow_header_sorted_joined (method : string) (allowed_methods : list string)
    (content : pyval) (headers : option (list (string * string))) :
  exists self,
    new HTTPMethodNotAllowed
      (ArgsHTTPMethodNotAllowed method allowed_methods content headers) = Ok self
    /\ md_get (Instance.headers self) "Allow" = Some (join "," (sorted allowed_methods))
    /\ Sorted str_le (sorted allowed_methods)
    /\ sorted allowed_methods ≡ₚ allowed_methods
    /\ Instance.status_code self = Some 405
    /\ Instance.allowed_methods self = Some allowed_methods
    /\ Instance.method self = Some (upper method).
Proof.
  unfold construct. simpl. unfold HTTPMethodNotAllowed__init__.
  rewrite Response__init__default. eexists. split; [reflexivity|]. simpl.
  split; [apply md_get_setitem|].
  split; [apply sorted_Sorted|].
  split; [apply sorted_Permutation|]. done.
Qed.

(** C8. For a class that fixes a status code: a call that passes a
    status raises (for a class that runs [Response.__init__] it is the
    [ValueError] of that constructor; the other constructors take no
    status); a call without a status whose arguments fit returns an
    instance that carries the status of the class. *)
Theorem fixed_status_not_customizable (cls : ResponseClass) (c : Z) :
  class_status_code cls = Some c ->
  (forall a s, status_argument a = Some s -> is_raise (new cls a) = true)
  /\ (forall content headers s,
        init_of cls = InitResponse ->
        new cls (ArgsResponse content headers (Some s))
          = Raise (ValueError "Can not customize status code of this type"))
  /\ (forall a,
        status_argument a = None -> fits cls a = true ->
        exists self, new cls a = Ok self /\ Instance.status_code self = Some c).
Proof.
  intros Hc. split; [|split].
  - intros a s Hs. unfold construct.
    destruct a; simpl in Hs; try discriminate; subst.
    + destruct (init_of cls) eqn:Hinit; try reflexivity.
      * by rewrite (Response__init__fixed _ _ _ _ _ Hc).
      * destruct cls; discriminate.
    + destruct (init_of cls) eqn:Hinit; try reflexivity.
      destruct cls; discriminate.
  - intros content headers s Hinit. unfold construct. rewrite Hinit.
    by apply Response__init__fixed with (c := c).
  - intros a Hs Hfit. unfold construct. unfold fits in Hfit.
    destruct (init_of cls) eqn:Hinit; destruct a; try discriminate; simpl in Hs; subst.
    + rewrite Response__init__default. eauto.
    + destruct cls; discriminate.
    + destruct cls; discriminate.
    + unfold _HTTPMove__init__. rewrite Hfit. cbn [negb].
      rewrite Response__init__default. eauto.
    + unfold HTTPMethodNotAllowed__init__. rewrite Response__init__default. eauto.
    + unfold HTTPUnavailableForLegalReasons__init__. rewrite Response__init__default. eauto.
Qed.

End Family.

(** C5 as the specification states it fails: for the methods [get],
    [post], [PUT] the header is [PUT,get,post], not the upper-cased
    [GET,POST,PUT]. *)
Lemma allow_header_keeps_case :
  allow_as_specified ["get"; "post"; "PUT"] = "GET,POST,PUT"
  /\ allow_header (construct sample_render_error_response HTTPMethodNotAllowed
                     (ArgsHTTPMethodNotAllowed "get" ["get"; "post"; "PUT"] PyNone None))
     = Some "PUT,get,post"
  /\ allow_header (construct sample_render_error_response HTTPMethodNotAllowed
                     (ArgsHTTPMethodNotAllowed "get" ["get"; "post"; "PUT"] PyNone None))
     <> Some (allow_as_specified ["get"; "post"; "PUT"]).
Proof.
  split; [vm_compute; reflexivity|].
  split; [vm_compute; reflexivity|].
  vm_compute. discriminate.
Qed.

Lemma fixed_status_not_customizable_witness :
  is_raise (construct sample_render_error_response HTTPOk
              (ArgsResponse PyNone None (Some 201))) = true
  /\ exists self,
       construct sample_render_error_response HTTPFound
         (ArgsHTTPMove "/login" PyNone None) = Ok self
       /\ Instance.status_code self = Some 302.
Proof.
  split.
  - apply (proj1 (fixed_status_not_customizable sample_render_error_response
                    HTTPOk 200 eq_refl) (ArgsResponse PyNone None (Some 201)) 201).
    reflexivity.
  - apply (proj2 (proj2 (fixed_status_not_customizable sample_render_error_response
                           HTTPFound 302 eq_refl))); reflexivity.
Defined.

(** C9. [HTTPNoContent] and [HTTPResetContent] constructed without a
    status, and [Response] constructed with a status of 204 or 205, come
    out with that status and with no content ([None]), whatever content
    the call passed. The same holds of every instance with status 204 or
    205 that [Response.__init__] has built, through whichever class and
    constructor that reaches it ([RawResponse] has a constructor of its
    own and is not one of them). *)
Theorem no_content_for_204_205 (render_error_response : string -> pyval -> dict) :
  (forall cls a self n,
     init_of cls <> InitRawResponse ->
     construct render_error_response cls a = Ok self ->
     Instance.status_code self = Some n -> no_content_status n = true ->
     Instance.content self = PyNone)
  /\ (forall cls content headers,
        cls = HTTPNoContent \/ cls = HTTPResetContent ->
        exists self,
          construct render_error_response cls (ArgsResponse content headers None) = Ok self
          /\ Instance.status_code self = class_status_code cls
          /\ Instance.content self = PyNone)
  /\ (forall content headers n,
        no_content_status n = true ->
        exists self,
          construct render_error_response Response (ArgsResponse content headers (Some n)) = Ok self
          /\ Instance.status_code self = Some n
          /\ Instance.content self = PyNone).
Proof.
  split; [|split].
  - intros cls a self n Hraw. unfold construct.
    destruct (init_of cls) eqn:Hinit; destruct a; try discriminate; try done.
    + apply Response__init__no_content.
    + unfold ErrorResponse__init__.
      destruct content as [| | |d]; try discriminate; apply Response__init__no_content.
    + unfold _HTTPMove__init__. destruct (negb _); [discriminate|].
      rewrite Response__init__default. intros [= <-]. simpl. intros Hcls Hn.
      destruct cls; simpl in Hcls; try discriminate; injection Hcls as <-; discriminate.
    + unfold HTTPMethodNotAllowed__init__.
      rewrite Response__init__default. intros [= <-]. simpl. intros Hcls Hn.
      destruct cls; simpl in Hcls; try discriminate; injection Hcls as <-; discriminate.
    + unfold HTTPUnavailableForLegalReasons__init__.
      rewrite Response__init__default. intros [= <-]. simpl. intros Hcls Hn.
      destruct cls; simpl in Hcls; try discriminate; injection Hcls as <-; discriminate.
  - intros cls content headers [-> | ->]; unfold construct; cbn [init_of];
      rewrite Response__init__default; eauto.
  - intros content headers n Hn. unfold construct, Response__init__. simpl.
    rewrite Hn. eauto.
Qed.

Lemma no_content_for_204_205_witness :
  construct sample_render_error_response ErrorResponse
    (ArgsErrorResponse "Gone" "nothing here" PyNone (PyDict [("k", PyStr "v")]) None (Some 205))
    = Ok sample_error_response
  /\ Instance.content sample_error_response = PyNone.
Proof.
  split; [reflexivity|].
  apply (proj1 (no_content_for_204_205 sample_render_error_response)
           ErrorResponse
           (ArgsErrorResponse "Gone" "nothing here" PyNone (PyDict [("k", PyStr "v")]) None (Some 205))
           sample_error_response 205); [discriminate | reflexivity | reflexivity | reflexivity].
Defined.

(** * Further properties *)

(** ** The writer: order, loss, the closing frame *)

Lemma sent_chunks_app l1 l2 : sent_chunks (l1 ++ l2) = sent_chunks l1 ++ sent_chunks l2.
Proof.
  induction l1 as [|[request|s [h st|body [|]]] l1 IH]; simpl; try done.
  by rewrite IH.
Qed.

Lemma sent_chunks_body_frames send queue :
  sent_chunks (List.map (body_frame send) queue) = queue.
Proof. induction queue as [|c queue IH]; simpl; [done | by rewrite IH]. Qed.

Lemma writer_fifo_from cs : forall self log,
  sent_chunks (snd (AsgiStreamWriter.run cs (self, log)))
    ++ AsgiStreamWriter._buffer (fst (AsgiStreamWriter.run cs (self, log)))
  = sent_chunks log ++ AsgiStreamWriter._buffer self ++ written_chunks cs.
Proof.
  induction cs as [|c cs IH]; intros self log.
  - simpl. by rewrite app_nil_r.
  - destruct c as [chunk|chunk|]; simpl.
    + unfold AsgiStreamWriter.run in IH. unfold AsgiStreamWriter.write. simpl.
      rewrite IH. simpl. by rewrite <- app_assoc.
    + unfold AsgiStreamWriter.run in IH. rewrite write_eof_sends. rewrite IH. simpl.
      rewrite !sent_chunks_app, sent_chunks_body_frames. simpl.
      rewrite app_nil_r. by rewrite <- !app_assoc.
    + unfold AsgiStreamWriter.run in IH. rewrite drain_sends. rewrite IH. simpl.
      rewrite !sent_chunks_app, sent_chunks_body_frames.
      destruct (AsgiStreamWriter.eof self); simpl; by rewrite app_nil_r, <- app_assoc.
Qed.

(** X1. Whatever [write], [write_eof] and [drain] calls are made on a
    new writer, in whatever order: the chunks already sent (the bodies of
    the frames with [more_body=True], in the order sent) followed by the
    chunks still queued are exactly the chunks handed to [write] and
    [write_eof], in call order. Nothing is lost, repeated or reordered. *)
Theorem writer_fifo (send : send_t) (cs : list AsgiStreamWriter.call) :
  sent_chunks (snd (AsgiStreamWriter.run cs (AsgiStreamWriter.__init__ send, [])))
    ++ AsgiStreamWriter._buffer
         (fst (AsgiStreamWriter.run cs (AsgiStreamWriter.__init__ send, [])))
  = written_chunks cs.
Proof. by rewrite writer_fifo_from. Qed.

Lemma writer_events_from cs : forall self log,
  Forall (writer_event (AsgiStreamWriter.send self)) log ->
  Forall (writer_event (AsgiStreamWriter.send self))
    (snd (AsgiStreamWriter.run cs (self, log)))
  /\ AsgiStreamWriter.send (fst (AsgiStreamWriter.run cs (self, log)))
     = AsgiStreamWriter.send self.
Proof.
  assert (Hbodies : forall send queue,
            Forall (writer_event send) (List.map (body_frame send) queue)).
  { intros send queue. induction queue; simpl; constructor; [|done].
    simpl. split; [done | discriminate]. }
  induction cs as [|c cs IH]; intros self log Hlog; [done|].
  destruct c as [chunk|chunk|]; simpl.
  - unfold AsgiStreamWriter.run in IH. unfold AsgiStreamWriter.write. simpl.
    by apply (IH (AsgiStreamWriter.mk _ _ _)).
  - unfold AsgiStreamWriter.run in IH. rewrite write_eof_sends.
    apply (IH (AsgiStreamWriter.mk _ _ _)). simpl.
    rewrite !Forall_app. split; [done|]. split; [apply Hbodies|].
    constructor; [|done]. by simpl.
  - unfold AsgiStreamWriter.run in IH. rewrite drain_sends.
    apply (IH (AsgiStreamWriter.mk _ _ _)). simpl.
    rewrite !Forall_app. split; [done|]. split; [apply Hbodies|].
    destruct (AsgiStreamWriter.eof self); [|done].
    constructor; [|done]. by simpl.
Qed.

Lemma no_last_frame_without_eof cs : forall self log,
  AsgiStreamWriter.eof self = false -> count_write_eof cs = 0%nat ->
  last_frames (snd (AsgiStreamWriter.run cs (self, log))) = last_frames log
  /\ AsgiStreamWriter.eof (fst (AsgiStreamWriter.run cs (self, log))) = false.
Proof.
  induction cs as [|c cs IH]; intros self log Heof Hcount; [done|].
  destruct c as [chunk|chunk|]; simpl in *.
  - unfold AsgiStreamWriter.run in IH. unfold AsgiStreamWriter.write. simpl.
    by apply (IH (AsgiStreamWriter.mk _ _ _)).
  - discriminate Hcount.
  - rewrite drain_sends, Heof. simpl.
    match goal with
    | |- context [AsgiStreamWriter.run cs (?s, ?l)] =>
        destruct (IH s l) as [Hframes Hflag]; [done | exact Hcount |]
    end.
    split; [|done]. rewrite Hframes.
    rewrite !last_frames_app, last_frames_body_frames. unfold last_frames. simpl. lia.
Qed.

(** X2. Every event a writer puts on the transport is a body frame on
    the [send] it was constructed with, and a frame with
    [more_body=False] always has an empty body. In a run without
    [write_eof] no frame with [more_body=False] is sent at all and [eof]
    stays unset. *)
Theorem writer_sends_only_body_frames (send : send_t) (cs : list AsgiStreamWriter.call) :
  Forall (writer_event send)
    (snd (AsgiStreamWriter.run cs (AsgiStreamWriter.__init__ send, [])))
  /\ (count_write_eof cs = 0%nat ->
      last_frames (snd (AsgiStreamWriter.run cs (AsgiStreamWriter.__init__ send, []))) = 0%nat
      /\ AsgiStreamWriter.eof
           (fst (AsgiStreamWriter.run cs (AsgiStreamWriter.__init__ send, []))) = false).
Proof.
  split.
  - by apply (writer_events_from cs (AsgiStreamWriter.__init__ send) []).
  - intros Hcount.
    by apply (no_last_frame_without_eof cs (AsgiStreamWriter.__init__ send) []).
Qed.

Lemma writer_sends_only_body_frames_witness :
  last_frames (snd (AsgiStreamWriter.run
                      [AsgiStreamWriter.Write abc; AsgiStreamWriter.Drain;
                       AsgiStreamWriter.Write de; AsgiStreamWriter.Drain]
                      (AsgiStreamWriter.__init__ 1%nat, []))) = 0%nat
  /\ AsgiStreamWriter.eof
       (fst (AsgiStreamWriter.run
               [AsgiStreamWriter.Write abc; AsgiStreamWriter.Drain;
                AsgiStreamWriter.Write de; AsgiStreamWriter.Drain]
               (AsgiStreamWriter.__init__ 1%nat, []))) = false.
Proof.
  apply (proj2 (writer_sends_only_body_frames 1%nat
                  [AsgiStreamWriter.Write abc; AsgiStreamWriter.Drain;
                   AsgiStreamWriter.Write de; AsgiStreamWriter.Drain])).
  reflexivity.
Defined.

(** X3. [drain] always leaves the queue empty and the [eof] flag as it
    was. While [eof] is unset, a [drain] sends exactly the queued chunks,
    in order, each with [more_body=True], so that a [drain] right after
    a [drain] changes nothing, and a [drain] on an empty queue sends
    nothing. *)
Theorem drain_empties_queue (self : AsgiStreamWriter.t) (log : list event) :
  AsgiStreamWriter._buffer (fst (AsgiStreamWriter.drain self log)) = []
  /\ AsgiStreamWriter.eof (fst (AsgiStreamWriter.drain self log)) = AsgiStreamWriter.eof self
  /\ (AsgiStreamWriter.eof self = false ->
      snd (AsgiStreamWriter.drain self log)
        = log ++ List.map (body_frame (AsgiStreamWriter.send self)) (AsgiStreamWriter._buffer self)
      /\ AsgiStreamWriter.drain (fst (AsgiStreamWriter.drain self log))
                                (snd (AsgiStreamWriter.drain self log))
         = AsgiStreamWriter.drain self log
      /\ (AsgiStreamWriter._buffer self = [] -> AsgiStreamWriter.drain self log = (self, log))).
Proof.
  rewrite drain_sends. simpl. split; [done|]. split; [done|].
  intros Heof. rewrite Heof. rewrite !app_nil_r. split; [done|].
  split.
  - rewrite drain_sends. simpl. by rewrite !app_nil_r.
  - intros Hempty. rewrite Hempty. simpl. rewrite app_nil_r.
    destruct self as [s q e]. simpl in *. by subst.
Qed.

Lemma drain_empties_queue_witness :
  snd (AsgiStreamWriter.drain (AsgiStreamWriter.mk 1%nat [abc; de] false) [])
    = [body_frame 1%nat abc; body_frame 1%nat de].
Proof.
  apply (proj1 (proj2 (proj2 (drain_empties_queue
                                (AsgiStreamWriter.mk 1%nat [abc; de] false) [])) eq_refl)).
Defined.

(** ** The streaming response: what reaches the transport *)

Lemma messages_app l1 l2 : messages (l1 ++ l2) = messages l1 ++ messages l2.
Proof.
  induction l1 as [|[request|s m] l1 IH]; simpl; [done | done | by rewrite IH].
Qed.

Lemma messages_body_frames send queue :
  messages (List.map (body_frame send) queue) = List.map more_body_frame queue.
Proof. induction queue as [|c queue IH]; simpl; [done | by rewrite IH]. Qed.

Section StreamInvariant.

Import StreamResponse.

Variable _prepare_hook : Request -> t -> result unit * t.
Variable headers_to_list : CIMultiDict -> list (bytes * bytes).

#[local] Abbreviation prepare := (prepare _prepare_hook headers_to_list).
#[local] Abbreviation step := (step _prepare_hook headers_to_list).
#[local] Abbreviation run := (run _prepare_hook headers_to_list).

Lemma step_stream_invariant c w :
  hook_keeps_life_cycle _prepare_hook -> stream_invariant w -> stream_invariant (step c w).
Proof.
  intros Hhook Hw. unfold stream_invariant in Hw.
  destruct (_eof_sent (response w)) eqn:Heof.
  { rewrite step_when_closed by done. unfold stream_invariant. by rewrite Heof. }
  destruct (_payload_writer (response w)) as [writer|] eqn:Hwriter.
  - destruct Hw as ((wr & Hwr & Hwr_eof) & Hreq & hs & st & bodies & Hmsgs).
    destruct c as [request|data| |data]; simpl.
    + rewrite (prepare_when_prepared _ _ _ _ writer) by done.
      unfold stream_invariant. simpl. rewrite Heof, Hwriter. eauto 10.
    + unfold write, bind, get_self. rewrite Heof, Hwriter.
      unfold on_writer. rewrite Hwr. unfold AsgiStreamWriter.write. simpl.
      unfold stream_invariant. simpl. rewrite Heof, Hwriter.
      split; [|eauto 10]. eexists. rewrite lookup_insert_eq. split; [done|]. done.
    + unfold drain, bind, get_self. rewrite Heof, Hwriter.
      unfold on_writer. rewrite Hwr, drain_sends, Hwr_eof. simpl.
      unfold stream_invariant. simpl. rewrite Heof, Hwriter.
      split; [eexists; rewrite lookup_insert_eq; split; done|].
      split; [done|].
      exists hs, st, (bodies ++ AsgiStreamWriter._buffer wr).
      rewrite !messages_app, messages_body_frames, Hmsgs. simpl.
      by rewrite app_nil_r, List.map_app.
    + unfold write_eof, bind, get_self. rewrite Heof, Hwriter.
      unfold on_writer. rewrite Hwr, write_eof_sends.
      unfold update_self, read_writer. simpl. rewrite lookup_insert_eq. simpl.
      unfold stream_invariant. simpl. split; [done|].
      exists hs, st, (bodies ++ AsgiStreamWriter._buffer wr ++ [data]).
      rewrite !messages_app, messages_body_frames, Hmsgs. simpl.
      rewrite !List.map_app. simpl. by rewrite <- !app_assoc.
  - destruct c as [request|data| |data]; simpl.
    + unfold StreamResponse.prepare, bind, get_self. rewrite Heof, Hwriter.
      unfold await_prepare_hook.
      destruct (Hhook request (response w)) as [Hkeep_writer Hkeep_eof].
      destruct (_prepare_hook request (response w)) as [[[]|e] self']; simpl in *.
      * unfold _start, bind, update_self, get_self, new_writer, await_send, ret. simpl.
        unfold stream_invariant. simpl.
        rewrite Hkeep_eof, Heof. split.
        { eexists. rewrite lookup_insert_eq. split; done. }
        split; [done|]. eexists _, _, []. rewrite !messages_app, Hw. by simpl.
      * unfold stream_invariant. simpl. rewrite Hkeep_eof, Heof, Hkeep_writer, Hwriter.
        rewrite messages_app, Hw. by simpl.
    + rewrite write_when_not_started by done.
      unfold stream_invariant. simpl. by rewrite Heof, Hwriter.
    + unfold drain, bind, get_self. rewrite Heof, Hwriter. simpl.
      unfold stream_invariant. by rewrite Heof, Hwriter.
    + unfold write_eof, bind, get_self. rewrite Heof, Hwriter. simpl.
      unfold stream_invariant. by rewrite Heof, Hwriter.
Qed.

(** X4. Whatever [prepare], [write], [drain] and [write_eof] calls are
    made on a new response, in whatever order and whether they return or
    raise (with a hook that leaves the writer and the eof flag alone):
    the transport has seen nothing while the response is not started; one
    start frame followed only by frames with [more_body=True] while it is
    prepared; and, once it is closed, that followed by exactly one empty
    frame with [more_body=False] and nothing after it. So no body goes
    out before the start frame, and the start frame and the closing frame
    go out at most once. *)
Theorem stream_messages_shape (content : pyval) (headers : option (list (string * string)))
    (status : option Z) (self : t) (cs : list call) :
  hook_keeps_life_cycle _prepare_hook ->
  __init__ content headers status = Ok self ->
  stream_invariant (run cs (initial self)).
Proof.
  intros Hhook Hinit.
  assert (Hstart : stream_invariant (initial self)).
  { unfold __init__ in Hinit. destruct status; [|discriminate].
    injection Hinit as <-. by unfold stream_invariant. }
  revert Hstart. generalize (initial self). clear Hinit.
  induction cs as [|c cs IH]; intros w Hw; [done|].
  simpl. apply IH. by apply step_stream_invariant.
Qed.

(** X5. [__repr__] of a response never fails its assertion after any
    run of calls on a new response: a prepared response always has its
    request. After a [write_eof] that returned it reads
    [<StreamResponse eof>]. *)
Theorem repr_never_raises (content : pyval) (headers : option (list (string * string)))
    (status : option Z) (self : t) (cs : list call) :
  hook_keeps_life_cycle _prepare_hook ->
  __init__ content headers status = Ok self ->
  (exists s, StreamResponse__repr__ (response (run cs (initial self))) = Ok s)
  /\ (_eof_sent (response (run cs (initial self))) = true ->
      StreamResponse__repr__ (response (run cs (initial self))) = Ok "<StreamResponse eof>")
  /\ StreamResponse__repr__ self = Ok "<StreamResponse not prepared>".
Proof.
  intros Hhook Hinit.
  pose proof (stream_messages_shape content headers status self cs Hhook Hinit) as Hinv.
  unfold stream_invariant in Hinv. unfold StreamResponse__repr__, prepared.
  split; [|split].
  - destruct (_eof_sent _); [eauto|].
    destruct (_payload_writer _); [|eauto].
    destruct Hinv as (_ & [req Hreq] & _). rewrite Hreq. eauto.
  - by intros ->.
  - unfold __init__ in Hinit. destruct status; [|discriminate]. by injection Hinit as <-.
Qed.

End StreamInvariant.

Lemma stream_messages_shape_witness :
  stream_invariant
    (StreamResponse.run sample_prepare_hook sample_headers_to_list
       [StreamResponse.Write abc; StreamResponse.Prepare sample_request;
        StreamResponse.Write abc; StreamResponse.Drain; StreamResponse.WriteEof de;
        StreamResponse.Drain; StreamResponse.Prepare sample_request]
       (StreamResponse.initial sample_response)).
Proof.
  apply (stream_messages_shape sample_prepare_hook sample_headers_to_list
           PyNone None (Some 200) sample_response).
  - intros request self. split; reflexivity.
  - reflexivity.
Defined.

Lemma repr_never_raises_witness :
  exists s,
    StreamResponse__repr__
      (StreamResponse.response
         (StreamResponse.run sample_prepare_hook sample_headers_to_list
            [StreamResponse.Prepare sample_request; StreamResponse.Write abc]
            (StreamResponse.initial sample_response))) = Ok s.
Proof.
  apply (repr_never_raises sample_prepare_hook sample_headers_to_list
           PyNone None (Some 200) sample_response
           [StreamResponse.Prepare sample_request; StreamResponse.Write abc]).
  - intros request self. split; reflexivity.
  - reflexivity.
Defined.

(** ** The start of a response *)

Lemma same_key_lower k1 k2 : same_key k1 k2 = true <-> lower k1 = lower k2.
Proof. unfold same_key. apply String.eqb_eq. Qed.

Lemma md_get_same_key md k1 k2 : same_key k1 k2 = true -> md_get md k1 = md_get md k2.
Proof.
  intros Hsame. apply same_key_lower in Hsame.
  induction md as [|[k v] md IH]; simpl; [done|].
  unfold same_key in *. by rewrite Hsame, IH.
Qed.

Lemma md_get_app md1 md2 key :
  md_get (md1 ++ md2) key
  = match md_get md1 key with Some v => Some v | None => md_get md2 key end.
Proof.
  induction md1 as [|[k v] md1 IH]; simpl; [done|].
  by destruct (same_key k key).
Qed.

Lemma md_get_setdefault md key default :
  md_get (md_setdefault md key default) key
  = Some (match md_get md key with Some v => v | None => default end).
Proof.
  unfold md_setdefault. destruct (md_get md key) as [v|] eqn:Hget; [done|].
  rewrite md_get_app, Hget. simpl. by rewrite same_key_refl.
Qed.

Lemma md_get_setdefault_ne md key default key' :
  same_key key key' = false ->
  md_get (md_setdefault md key default) key' = md_get md key'.
Proof.
  intros Hne. unfold md_setdefault. destruct (md_get md key); [done|].
  rewrite md_get_app. simpl. rewrite Hne. by destruct (md_get md key').
Qed.

Section StreamStart.

Import StreamResponse.

Variable _prepare_hook : Request -> t -> result unit * t.
Variable headers_to_list : CIMultiDict -> list (bytes * bytes).

#[local] Abbreviation prepare := (prepare _prepare_hook headers_to_list).
#[local] Abbreviation run := (run _prepare_hook headers_to_list).

(** X6. The first [prepare] of a response, when the hook returns, with
    [self'] the response as the hook left it. It returns a new writer
    and sends one start frame, which carries the status of [self'] and
    the headers of the response as they are afterwards. In those headers
    a [Content-Type] that was already there is kept; without one, the
    header is the [content_type] attribute if that is set and not empty,
    else [application/octet-stream]. A [Content-Length] that was there is
    kept; without one, the header is added only when [content_length] is
    set and not 0. Every other header is as before. The request is kept
    in [_req], and [_keep_alive] is the request's only when the
    response's was [None]. *)
Theorem start_headers (request : Request) (w : World) (self' : t) :
  _eof_sent (response w) = false -> _payload_writer (response w) = None ->
  _prepare_hook request (response w) = (Ok tt, self') ->
  exists writer w',
    prepare request w = (Ok (Some writer), w')
    /\ writers w !! writer = None
    /\ trace w' = trace w ++ [PrepareHook request;
                              Sent (req_send request)
                                (http_response_start
                                   (headers_to_list (headers (response w')))
                                   (status_code self'))]
    /\ md_get (headers (response w')) "Content-Type"
       = Some (match md_get (headers self') "Content-Type" with
               | Some v => v
               | None => effective_content_type self'
               end)
    /\ md_get (headers (response w')) "Content-Length"
       = match md_get (headers self') "Content-Length" with
         | Some v => Some v
         | None =>
             match content_length self' with
             | Some n => if Z.eqb n 0 then None else Some (pretty n)
             | None => None
             end
         end
    /\ (forall key,
          same_key "Content-Type" key = false -> same_key "Content-Length" key = false ->
          md_get (headers (response w')) key = md_get (headers self') key)
    /\ _req (response w') = Some request
    /\ _keep_alive (response w')
       = match _keep_alive self' with
         | Some k => Some k
         | None => req_keep_alive request
         end.
Proof.
  intros Heof Hwriter Hhook.
  unfold StreamResponse.prepare, bind, get_self. rewrite Heof, Hwriter.
  unfold await_prepare_hook. rewrite Hhook.
  unfold _start, bind, update_self, get_self, new_writer, await_send, ret. simpl.
  eexists _, _. split; [reflexivity|]. simpl.
  split. { apply not_elem_of_dom, is_fresh. }
  split. { by rewrite <- app_assoc. }
  assert (Htype : forall md,
            (if str_truthy (content_type self')
             then md_setdefault md "Content-Type" (default "" (content_type self'))
             else md_setdefault md "Content-Type" "application/octet-stream")
            = md_setdefault md "Content-Type" (effective_content_type self')).
  { intros md. unfold str_truthy, effective_content_type.
    destruct (content_type self') as [ct|]; simpl; [|done].
    by destruct (String.eqb ct ""). }
  rewrite !Htype.
  assert (Hlen : forall md,
            md_get (if int_truthy (content_length self')
                    then md_setdefault md "Content-Length"
                           (pretty (default 0 (content_length self')))
                    else md) "Content-Length"
            = match md_get md "Content-Length" with
              | Some v => Some v
              | None =>
                  match content_length self' with
                  | Some n => if Z.eqb n 0 then None else Some (pretty n)
                  | None => None
                  end
              end).
  { intros md. unfold int_truthy.
    destruct (content_length self') as [n|]; simpl.
    - destruct (Z.eqb n 0); simpl.
      + by destruct (md_get md "Content-Length").
      + rewrite md_get_setdefault. by destruct (md_get md "Content-Length").
    - by destruct (md_get md "Content-Length"). }
  assert (Hother : forall md key,
            same_key "Content-Length" key = false ->
            md_get (if int_truthy (content_length self')
                    then md_setdefault md "Content-Length"
                           (pretty (default 0 (content_length self')))
                    else md) key
            = md_get md key).
  { intros md key Hne. destruct (int_truthy _); [|done].
    by apply md_get_setdefault_ne. }
  split. { rewrite Hother by done. apply md_get_setdefault. }
  split. { rewrite Hlen. by rewrite md_get_setdefault_ne. }
  split. { intros key Htype_ne Hlen_ne. rewrite Hother by done.
           by apply md_get_setdefault_ne. }
  split; [done|]. by destruct (_keep_alive self').
Qed.

(** X7. When the hook raises, [prepare] raises the same exception: no
    writer is made, no message is sent, and the response is as the hook
    left it. *)
Theorem prepare_hook_raises (request : Request) (w : World) (self' : t) (e : exn) :
  _eof_sent (response w) = false -> _payload_writer (response w) = None ->
  _prepare_hook request (response w) = (Raise e, self') ->
  fst (prepare request w) = Raise e
  /\ response (snd (prepare request w)) = self'
  /\ writers (snd (prepare request w)) = writers w
  /\ messages (trace (snd (prepare request w))) = messages (trace w).
Proof.
  intros Heof Hwriter Hhook.
  unfold StreamResponse.prepare, bind, get_self. rewrite Heof, Hwriter.
  unfold await_prepare_hook. rewrite Hhook. simpl.
  repeat split. rewrite messages_app. simpl. by rewrite app_nil_r.
Qed.

(** X8. [drain] on a response: before [prepare] and after [write_eof] it
    fails its assertion and changes nothing. On a prepared response whose
    writer has not seen [write_eof] it returns, sends the queued chunks
    in order with [more_body=True] and nothing else, and leaves the
    queue empty. *)
Theorem response_drain (w : World) :
  (_eof_sent (response w) = true ->
   drain w = (Raise (AssertionError "EOF has already been sent"), w))
  /\ (_eof_sent (response w) = false -> _payload_writer (response w) = None ->
      drain w = (Raise (AssertionError "Response has not been started"), w))
  /\ (forall writer wr,
        _eof_sent (response w) = false -> _payload_writer (response w) = Some writer ->
        writers w !! writer = Some wr -> AsgiStreamWriter.eof wr = false ->
        drain w
        = (Ok tt,
           mkWorld (response w)
             (<[writer := AsgiStreamWriter.mk (AsgiStreamWriter.send wr) [] false]> (writers w))
             (trace w ++ List.map (body_frame (AsgiStreamWriter.send wr))
                           (AsgiStreamWriter._buffer wr)))).
Proof.
  split; [|split].
  - apply drain_when_closed.
  - intros Heof Hwriter. unfold drain, bind, get_self. by rewrite Heof, Hwriter.
  - intros writer wr Heof Hwriter Hwr Hwr_eof.
    unfold drain, bind, get_self. rewrite Heof, Hwriter.
    unfold on_writer. rewrite Hwr, drain_sends, Hwr_eof. simpl.
    by rewrite app_nil_r.
Qed.

Lemma run_writes_prepared chunks : forall w writer wr,
  _eof_sent (response w) = false -> _payload_writer (response w) = Some writer ->
  writers w !! writer = Some wr ->
  run (List.map Write chunks) w
  = mkWorld (response w)
      (<[writer := AsgiStreamWriter.mk (AsgiStreamWriter.send wr)
                     (AsgiStreamWriter._buffer wr ++ chunks) (AsgiStreamWriter.eof wr)]>
         (writers w))
      (trace w).
Proof.
  induction chunks as [|c chunks IH]; intros w writer wr Heof Hwriter Hwr.
  - simpl. rewrite app_nil_r. destruct wr, w; simpl in *. by rewrite insert_id.
  - simpl. unfold write at 1, bind, get_self. rewrite Heof, Hwriter.
    unfold on_writer. rewrite Hwr. unfold AsgiStreamWriter.write. simpl.
    erewrite IH; simpl; [| done | done | by rewrite lookup_insert_eq].
    simpl. by rewrite insert_insert_eq, <- app_assoc.
Qed.

(** X9. A whole response: on a response that is not started, when the
    hook returns and leaves the eof flag unset, [prepare], then
    [write(chunk_1)] ... [write(chunk_n)], then [write_eof(final)] put on
    the transport the start frame, one frame with [more_body=True] per
    chunk in the order written, one for [final], and the empty closing
    frame, and nothing else; the response ends closed, its writer
    released. *)
Theorem whole_response (request : Request) (w : World) (self' : t)
    (chunks : list bytes) (final : bytes) :
  _eof_sent (response w) = false -> _payload_writer (response w) = None ->
  _prepare_hook request (response w) = (Ok tt, self') -> _eof_sent self' = false ->
  exists hs,
    messages (trace (run (Prepare request :: List.map Write chunks ++ [WriteEof final]) w))
    = messages (trace w)
        ++ http_response_start hs (status_code self')
           :: List.map more_body_frame (chunks ++ [final])
        ++ [http_response_body [] false]
    /\ _eof_sent (response (run (Prepare request :: List.map Write chunks
                                   ++ [WriteEof final]) w)) = true
    /\ _payload_writer (response (run (Prepare request :: List.map Write chunks
                                         ++ [WriteEof final]) w)) = None.
Proof.
  intros Heof Hwriter Hhook Heof'.
  destruct (prepare_starts _prepare_hook headers_to_list request w self' Heof Hwriter Hhook)
    as (w1 & Hprepare & Hwriter1 & Heof1 & Hwriters1 & hs & Htrace1).
  exists (headers_to_list hs).
  change (Prepare request :: List.map Write chunks ++ [WriteEof final])
    with ([Prepare request] ++ List.map Write chunks ++ [WriteEof final]).
  unfold StreamResponse.run. rewrite !fold_left_app. simpl. rewrite Hprepare. simpl.
  assert (Hwr1 : writers w1 !! fresh (dom (writers w))
                 = Some (AsgiStreamWriter.__init__ (req_send request))).
  { rewrite Hwriters1. by rewrite lookup_insert_eq. }
  pose proof (run_writes_prepared chunks w1 _ _ ltac:(congruence) Hwriter1 Hwr1) as Hwrites.
  unfold StreamResponse.run in Hwrites. rewrite Hwrites. simpl.
  unfold write_eof, bind, get_self. simpl. rewrite Heof1, Heof', Hwriter1.
  unfold on_writer. simpl. rewrite lookup_insert_eq, write_eof_sends.
  unfold update_self, read_writer. simpl. rewrite lookup_insert_eq. simpl.
  split; [|done].
  rewrite Htrace1, !messages_app, messages_body_frames. simpl.
  by rewrite <- !app_assoc.
Qed.

End StreamStart.

Lemma start_headers_witness :
  exists writer w',
    StreamResponse.prepare sample_prepare_hook sample_headers_to_list sample_request
      (StreamResponse.initial sample_response) = (Ok (Some writer), w')
    /\ md_get (StreamResponse.headers (StreamResponse.response w')) "content-type"
       = Some "application/octet-stream".
Proof.
  destruct (start_headers sample_prepare_hook sample_headers_to_list sample_request
              (StreamResponse.initial sample_response)
              (snd (sample_prepare_hook sample_request sample_response))
              eq_refl eq_refl eq_refl)
    as (writer & w' & Hprepare & _ & _ & Htype & _).
  exists writer, w'. split; [exact Hprepare|].
  rewrite (md_get_same_key _ "content-type" "Content-Type" eq_refl). exact Htype.
Defined.

Lemma prepare_hook_raises_witness :
  fst (StreamResponse.prepare sample_failing_hook sample_headers_to_list sample_request
         (StreamResponse.initial sample_response)) = Raise (RuntimeError "hook failed").
Proof.
  apply (prepare_hook_raises sample_failing_hook sample_headers_to_list sample_request
           (StreamResponse.initial sample_response) sample_response
           (RuntimeError "hook failed") eq_refl eq_refl eq_refl).
Defined.

Lemma response_drain_witness :
  StreamResponse.drain (StreamResponse.initial sample_response)
  = (Raise (AssertionError "Response has not been started"),
     StreamResponse.initial sample_response).
Proof.
  apply (proj1 (proj2 (response_drain (StreamResponse.initial sample_response))));
    reflexivity.
Defined.

Lemma whole_response_witness :
  exists hs,
    messages (StreamResponse.trace
                (StreamResponse.run sample_prepare_hook sample_headers_to_list
                   (StreamResponse.Prepare sample_request
                      :: List.map StreamResponse.Write [abc; de] ++ [StreamResponse.WriteEof []])
                   (StreamResponse.initial sample_response)))
    = http_response_start hs (Some 200)
        :: List.map more_body_frame ([abc; de] ++ [[]]) ++ [http_response_body [] false].
Proof.
  destruct (whole_response sample_prepare_hook sample_headers_to_list sample_request
              (StreamResponse.initial sample_response)
              (snd (sample_prepare_hook sample_request sample_response))
              [abc; de] [] eq_refl eq_refl eq_refl eq_refl)
    as (hs & Hmessages & _).
  exists hs. exact Hmessages.
Defined.

(** ** The scratch map of a response *)

(** X10. The scratch map of a response behaves as a mapping: a value
    set under a key is read back, the other keys are not touched; reading
    or deleting a key that is absent raises [KeyError]; a deleted key is
    absent afterwards and the length goes down by one, as it goes up by
    one when a new key is set. Setting and deleting leave the writer and
    the eof flag as they are. *)
Theorem scratch_map (self : StreamResponse.t) (key : string) (value : pyval) :
  StreamResponse__getitem__ (StreamResponse__setitem__ self key value) key = Ok value
  /\ (forall key', key' <> key ->
        StreamResponse__getitem__ (StreamResponse__setitem__ self key value) key'
        = StreamResponse__getitem__ self key')
  /\ (StreamResponse._state self !! key = None ->
      StreamResponse__getitem__ self key = Raise (KeyError key)
      /\ StreamResponse__delitem__ self key = Raise (KeyError key)
      /\ StreamResponse__len__ (StreamResponse__setitem__ self key value)
         = S (StreamResponse__len__ self))
  /\ (forall self',
        StreamResponse__delitem__ self key = Ok self' ->
        StreamResponse__getitem__ self' key = Raise (KeyError key)
        /\ S (StreamResponse__len__ self') = StreamResponse__len__ self
        /\ (forall key', key' <> key ->
              StreamResponse__getitem__ self' key' = StreamResponse__getitem__ self key')
        /\ StreamResponse._payload_writer self' = StreamResponse._payload_writer self
        /\ StreamResponse._eof_sent self' = StreamResponse._eof_sent self)
  /\ StreamResponse._payload_writer (StreamResponse__setitem__ self key value)
     = StreamResponse._payload_writer self
  /\ StreamResponse._eof_sent (StreamResponse__setitem__ self key value)
     = StreamResponse._eof_sent self.
Proof.
  unfold StreamResponse__getitem__, StreamResponse__setitem__, StreamResponse__delitem__,
    StreamResponse__len__. simpl.
  split. { by rewrite lookup_insert_eq. }
  split. { intros key' Hne. by rewrite lookup_insert_ne. }
  split.
  { intros Habsent. rewrite Habsent. split; [done|]. split; [done|].
    by rewrite map_size_insert_None. }
  split; [|done].
  intros self'. destruct (StreamResponse._state self !! key) as [old|] eqn:Hold; [|discriminate].
  intros [= <-]. simpl. rewrite lookup_delete_eq. split; [done|].
  split.
  { rewrite <- (insert_delete_id (StreamResponse._state self) key old Hold) at 2.
    rewrite map_size_insert_None; [done | apply lookup_delete_eq]. }
  split; [|done]. intros key' Hne. by rewrite lookup_delete_ne.
Qed.

Lemma scratch_map_witness :
  StreamResponse__getitem__
    (StreamResponse__setitem__ sample_response "user" (PyStr "root")) "token"
  = StreamResponse__getitem__ sample_response "token".
Proof.
  apply (proj1 (proj2 (scratch_map sample_response "user" (PyStr "root")))).
  discriminate.
Defined.

(** ** The headers and contents of the materialized responses *)

Lemma same_key_trans_false a b c :
  same_key a b = true -> same_key b c = false -> same_key a c = false.
Proof.
  unfold same_key. rewrite String.eqb_eq, !String.eqb_neq. by intros ->.
Qed.

Lemma md_get_without md key key' :
  same_key key key' = false ->
  md_get (List.filter (fun kv => negb (same_key (fst kv) key)) md) key' = md_get md key'.
Proof.
  intros Hne. induction md as [|[k v] md IH]; simpl; [done|].
  destruct (same_key k key) eqn:Hk; simpl.
  - by rewrite (same_key_trans_false _ _ _ Hk Hne).
  - by rewrite IH.
Qed.

Lemma md_get_setitem_ne md key value key' :
  same_key key key' = false -> md_get (md_setitem md key value) key' = md_get md key'.
Proof.
  intros Hne. induction md as [|[k v] md IH]; simpl.
  - by rewrite Hne.
  - destruct (same_key k key) eqn:Hk; simpl.
    + rewrite Hne, (same_key_trans_false _ _ _ Hk Hne). by apply md_get_without.
    + by rewrite IH.
Qed.

Lemma md_count_without md key :
  md_count (List.filter (fun kv => negb (same_key (fst kv) key)) md) key = 0%nat.
Proof.
  unfold md_count. induction md as [|[k v] md IH]; simpl; [done|].
  destruct (same_key k key) eqn:Hk; simpl; [done|]. by rewrite Hk.
Qed.

Lemma md_count_setitem md key value : md_count (md_setitem md key value) key = 1%nat.
Proof.
  induction md as [|[k v] md IH]; simpl.
  - unfold md_count. simpl. by rewrite same_key_refl.
  - destruct (same_key k key) eqn:Hk.
    + unfold md_count. simpl. rewrite same_key_refl. simpl.
      f_equal. apply md_count_without.
    + unfold md_count in *. simpl. by rewrite Hk.
Qed.

Section FamilyHeaders.

Variable render_error_response : string -> pyval -> dict.

#[local] Abbreviation new := (construct render_error_response).

(** X11. A redirect ([_HTTPMove] and the classes that run its
    constructor): an empty location raises [ValueError]; a location that
    is not empty gives an instance with the status of the class, the
    location stored, and exactly one [Location] header, whose value is
    the location, whatever [Location] headers the caller passed, in
    whatever case; the caller's other headers read as passed. *)
Theorem redirect_location (cls : ResponseClass) (location : string) (content : pyval)
    (headers : option (list (string * string))) :
  init_of cls = InitHTTPMove ->
  new cls (ArgsHTTPMove "" content headers)
    = Raise (ValueError "HTTP redirects need a location to redirect to.")
  /\ (location <> "" ->
      exists self,
        new cls (ArgsHTTPMove location content headers) = Ok self
        /\ Instance.status_code self = class_status_code cls
        /\ Instance.location self = Some location
        /\ md_get (Instance.headers self) "Location" = Some location
        /\ md_count (Instance.headers self) "Location" = 1%nat
        /\ (forall key, same_key "Location" key = false ->
              md_get (Instance.headers self) key = md_get (CIMultiDict_new headers) key)).
Proof.
  intros Hinit. unfold construct. rewrite Hinit. split; [done|].
  intros Hloc. unfold _HTTPMove__init__.
  assert (Htruthy : truthy (PyStr location) = true).
  { simpl. apply String.eqb_neq in Hloc. by rewrite Hloc. }
  rewrite Htruthy. cbn [negb]. rewrite Response__init__default.
  eexists. split; [reflexivity|]. simpl.
  split; [done|]. split; [done|].
  split; [apply md_get_setitem|].
  split; [apply md_count_setitem|].
  intros key Hne. by apply md_get_setitem_ne.
Qed.

(** X12. [HTTPMethodNotAllowed] and [HTTPUnavailableForLegalReasons]
    always construct, with status 405 and 451. The instance has exactly
    one [Allow] (one [Link]) header, whatever the caller passed under
    that name; the [Link] header is the link between angle brackets
    followed by the blocked-by relation; and the caller's other headers
    read as passed. *)
Theorem allow_and_link_headers (method link : string) (allowed_methods : list string)
    (content : pyval) (headers : option (list (string * string))) :
  (exists self,
     new HTTPMethodNotAllowed
       (ArgsHTTPMethodNotAllowed method allowed_methods content headers) = Ok self
     /\ md_count (Instance.headers self) "Allow" = 1%nat
     /\ (forall key, same_key "Allow" key = false ->
           md_get (Instance.headers self) key = md_get (CIMultiDict_new headers) key))
  /\ (exists self,
        new HTTPUnavailableForLegalReasons
          (ArgsHTTPUnavailableForLegalReasons link content headers) = Ok self
        /\ Instance.status_code self = Some 451
        /\ Instance.link self = Some link
        /\ md_get (Instance.headers self) "Link" = Some (blocked_by link)
        /\ md_count (Instance.headers self) "Link" = 1%nat
        /\ (forall key, same_key "Link" key = false ->
              md_get (Instance.headers self) key = md_get (CIMultiDict_new headers) key)).
Proof.
  unfold construct. cbn [init_of].
  unfold HTTPMethodNotAllowed__init__, HTTPUnavailableForLegalReasons__init__.
  rewrite !Response__init__default. split.
  - eexists. split; [reflexivity|]. simpl.
    split; [apply md_count_setitem|]. intros key Hne. by apply md_get_setitem_ne.
  - eexists. split; [reflexivity|]. simpl.
    split; [done|]. split; [done|]. split; [apply md_get_setitem|].
    split; [apply md_count_setitem|]. intros key Hne. by apply md_get_setitem_ne.
Qed.

End FamilyHeaders.

Lemma redirect_location_witness :
  exists self,
    construct sample_render_error_response HTTPFound
      (ArgsHTTPMove "/login" PyNone (Some [("LOCATION", "/old"); ("location", "/older")]))
    = Ok self
    /\ md_count (Instance.headers self) "Location" = 1%nat.
Proof.
  destruct (proj2 (redirect_location sample_render_error_response HTTPFound "/login" PyNone
                     (Some [("LOCATION", "/old"); ("location", "/older")]) eq_refl))
    as (self & Hnew & _ & _ & _ & Hcount & _); [discriminate|].
  exists self. split; [exact Hnew | exact Hcount].
Defined.

Lemma allow_and_link_headers_witness :
  exists self,
    construct sample_render_error_response HTTPMethodNotAllowed
      (ArgsHTTPMethodNotAllowed "get" ["GET"] PyNone (Some [("X-Trace", "1"); ("allow", "*")]))
    = Ok self
    /\ md_get (Instance.headers self) "x-trace" = Some "1".
Proof.
  destruct (proj1 (allow_and_link_headers sample_render_error_response "get" "" ["GET"] PyNone
                     (Some [("X-Trace", "1"); ("allow", "*")])))
    as (self & Hnew & _ & Hother).
  exists self. split; [exact Hnew|]. apply (Hother "x-trace"). reflexivity.
Defined.

Lemma dict_get_setitem d k v : dict_get (dict_setitem d k v) k = Some v.
Proof.
  induction d as [|[k0 v0] d IH]; simpl.
  - by rewrite String.eqb_refl.
  - destruct (String.eqb k0 k) eqn:Hk; simpl.
    + by rewrite String.eqb_refl.
    + by rewrite Hk.
Qed.

Lemma dict_get_setitem_ne d k v k' :
  k' <> k -> dict_get (dict_setitem d k v) k' = dict_get d k'.
Proof.
  intros Hne. induction d as [|[k0 v0] d IH]; simpl.
  - assert (String.eqb k k' = false) as -> by (apply String.eqb_neq; congruence). done.
  - destruct (String.eqb k0 k) eqn:Hk; simpl.
    + apply String.eqb_eq in Hk. subst k0.
      assert (String.eqb k k' = false) as -> by (apply String.eqb_neq; congruence). done.
    + by rewrite IH.
Qed.

Lemma dict_setitem_truthy d k v : truthy (PyDict (dict_setitem d k v)) = true.
Proof. destruct d as [|[k0 v0] d]; simpl; [done|]. by destruct (String.eqb k0 k). Qed.

Lemma py_or_not_none a d : py_or a (PyDict d) <> PyNone.
Proof.
  unfold py_or.
  destruct a as [|s|b|items]; simpl;
    [done | destruct (negb _); done | destruct b; done | destruct items; done].
Qed.

Section FamilyContents.

Variable render_error_response : string -> pyval -> dict.

#[local] Abbreviation new := (construct render_error_response).

(** X13. [ErrorResponse(type, message)] without a reason and with a
    status other than 204 and 205: when the content passed is a dict
    (or [None], taken as the empty dict) the instance is constructed, its
    content is that dict with the key [error] set to the type and the
    message (a value the caller had under [error] is overwritten), every
    other key keeps its value, and the status is the one passed. A
    content that is a str or bytes raises [TypeError]. *)
Theorem error_response_content (type message : string) (content : pyval) (d : dict)
    (headers : option (list (string * string))) (status : option Z) :
  (content = PyNone /\ d = []) \/ content = PyDict d ->
  (forall n, status = Some n -> no_content_status n = false) ->
  (exists self d',
     new ErrorResponse (ArgsErrorResponse type message PyNone content headers status) = Ok self
     /\ Instance.content self = PyDict d'
     /\ dict_get d' "error" = Some (PyDict [("type", PyStr type); ("message", PyStr message)])
     /\ (forall k, k <> "error" -> dict_get d' k = dict_get d k)
     /\ Instance.status_code self = status)
  /\ (forall s b,
        is_raise (new ErrorResponse
                    (ArgsErrorResponse type message PyNone (PyStr s) headers status)) = true
        /\ is_raise (new ErrorResponse
                       (ArgsErrorResponse type message PyNone (PyBytes b) headers status)) = true).
Proof.
  intros Hcontent Hstatus. split; [|done].
  unfold construct. cbn [init_of]. unfold ErrorResponse__init__.
  assert (Hbody : forall d0,
            exists self d',
              Response__init__ ErrorResponse
                (PyDict (dict_setitem d0 "error"
                           (PyDict [("type", PyStr type); ("message", PyStr message)])))
                headers status = Ok self
              /\ Instance.content self = PyDict d'
              /\ dict_get d' "error"
                 = Some (PyDict [("type", PyStr type); ("message", PyStr message)])
              /\ (forall k, k <> "error" -> dict_get d' k = dict_get d0 k)
              /\ Instance.status_code self = status).
  { intros d0. unfold Response__init__. simpl.
    destruct status as [n|].
    - rewrite (Hstatus n eq_refl). eexists _, _. split; [reflexivity|]. simpl.
      unfold py_or. rewrite dict_setitem_truthy.
      split; [done|]. split; [apply dict_get_setitem|].
      split; [|done]. intros k Hk. by apply dict_get_setitem_ne.
    - eexists _, _. split; [reflexivity|]. simpl.
      unfold py_or. rewrite dict_setitem_truthy.
      split; [done|]. split; [apply dict_get_setitem|].
      split; [|done]. intros k Hk. by apply dict_get_setitem_ne. }
  destruct Hcontent as [[-> ->] | ->]; apply Hbody.
Qed.

(** X14. For a class that runs [Response.__init__], an instance that is
    constructed has no content ([None]) exactly when the class sets
    [empty_body] (204, 205 and 304) or the status passed is 204 or 205;
    in every other case the content is the content passed when that is
    truthy and an empty dict otherwise, never [None]. *)
Theorem response_content (cls : ResponseClass) (content : pyval)
    (headers : option (list (string * string))) (status : option Z) (self : Instance.t) :
  init_of cls = InitResponse ->
  new cls (ArgsResponse content headers status) = Ok self ->
  (Instance.content self = PyNone <->
   empty_body cls = true \/ exists n, status = Some n /\ no_content_status n = true)
  /\ (Instance.content self <> PyNone ->
      Instance.content self = (if truthy content then content else PyDict [])).
Proof.
  intros Hinit. unfold construct. rewrite Hinit. unfold Response__init__.
  destruct status as [n|].
  - destruct (status_truthy _); [discriminate|]. intros [= <-].
    destruct (no_content_status n) eqn:Hn, (empty_body cls) eqn:Hempty; simpl.
    + split; [|done]. split; eauto.
    + split; [|done]. split; eauto.
    + split; [|done]. split; eauto.
    + split; [|done]. split.
      * intros Hnone. by apply py_or_not_none in Hnone.
      * intros [? | (n' & [= <-] & Hn')]; congruence.
  - intros [= <-]. destruct (empty_body cls) eqn:Hempty; simpl.
    + split; [|done]. split; eauto.
    + split; [|done]. split.
      * intros Hnone. by apply py_or_not_none in Hnone.
      * intros [? | (n' & [=] & _)]. congruence.
Qed.

(** X15. [RawResponse] always constructs, whatever status is passed
    (also none, and also 204): its body is the content passed when that
    is truthy and empty bytes otherwise, so never [None]; its status is
    the status passed. *)
Theorem raw_response_body (content : pyval) (headers : option (list (string * string)))
    (status : option Z) :
  exists self,
    new RawResponse (ArgsResponse content headers status) = Ok self
    /\ RawResponse_body self = (if truthy content then content else PyBytes [])
    /\ RawResponse_body self <> PyNone
    /\ Instance.status_code self = status
    /\ Instance.headers self = CIMultiDict_new headers.
Proof.
  unfold construct. cbn [init_of]. unfold RawResponse__init__. simpl.
  eexists. split; [reflexivity|]. unfold RawResponse_body, py_or. simpl.
  split; [done|]. split; [|done].
  destruct content as [|s|b|items]; simpl;
    [done | destruct (negb _); done | destruct b; done | destruct items; done].
Qed.

End FamilyContents.

Lemma error_response_content_witness :
  exists self d',
    construct sample_render_error_response ErrorResponse
      (ArgsErrorResponse "NotFound" "no such object" PyNone
         (PyDict [("error", PyStr "old"); ("path", PyStr "/db")]) None (Some 404)) = Ok self
    /\ Instance.content self = PyDict d'
    /\ dict_get d' "path" = Some (PyStr "/db").
Proof.
  destruct (error_response_content sample_render_error_response
              "NotFound" "no such object"
              (PyDict [("error", PyStr "old"); ("path", PyStr "/db")])
              [("error", PyStr "old"); ("path", PyStr "/db")] None (Some 404))
    as [(self & d' & Hnew & Hcontent & _ & Hother & _) _].
  - right. reflexivity.
  - intros n [= <-]. reflexivity.
  - exists self, d'. split; [exact Hnew|]. split; [exact Hcontent|].
    rewrite (Hother "path"); [reflexivity | discriminate].
Defined.

Lemma response_content_witness :
  Instance.content
    (Instance.mk HTTPNotFound (PyDict [("reason", PyStr "gone")]) [] (Some 404)
       None None None None) <> PyNone.
Proof.
  intros Hnone.
  apply (proj1 (proj1 (response_content sample_render_error_response HTTPNotFound
                         (PyDict [("reason", PyStr "gone")]) None None
                         (Instance.mk HTTPNotFound (PyDict [("reason", PyStr "gone")]) []
                            (Some 404) None None None None)
                         eq_refl eq_refl))) in Hnone.
  destruct Hnone as [Hempty | (n & Hstatus & _)]; discriminate.
Defined.

(** ** The registry of databases *)

(** X16. Storing a database under a key in the application root: the
    key is then contained, and subscript, [get] and [asyncget] all return
    that database; every other key is looked up as before; the length
    grows by one when the key was absent and stays when it was
    present. *)
Theorem registry_setitem (self : ApplicationRoot.t) (key : string)
    (db : ApplicationRoot.Database) :
  ApplicationRoot.__contains__ (ApplicationRoot.__setitem__ self key db) key = true
  /\ ApplicationRoot.__getitem__ (ApplicationRoot.__setitem__ self key db) key = Ok db
  /\ ApplicationRoot.get (ApplicationRoot.__setitem__ self key db) key = Ok (Some db)
  /\ ApplicationRoot.asyncget (ApplicationRoot.__setitem__ self key db) key = Ok (Some db)
  /\ (forall key', key' <> key ->
        ApplicationRoot.get (ApplicationRoot.__setitem__ self key db) key'
        = ApplicationRoot.get self key'
        /\ ApplicationRoot.__contains__ (ApplicationRoot.__setitem__ self key db) key'
           = ApplicationRoot.__contains__ self key')
  /\ ApplicationRoot.__len__ (ApplicationRoot.__setitem__ self key db)
     = (if ApplicationRoot.__contains__ self key
        then ApplicationRoot.__len__ self
        else S (ApplicationRoot.__len__ self)).
Proof.
  unfold ApplicationRoot.__contains__, ApplicationRoot.get, ApplicationRoot.__getitem__,
    ApplicationRoot.asyncget, ApplicationRoot.__setitem__, ApplicationRoot.__len__. simpl.
  rewrite lookup_insert_eq. repeat (split; [done|]). split.
  - intros key' Hne. by rewrite lookup_insert_ne.
  - destruct (ApplicationRoot._dbs self !! key) as [old|] eqn:Hold.
    + apply map_size_insert_Some. by rewrite Hold.
    + by apply map_size_insert_None.
Qed.

Lemma registry_setitem_witness :
  ApplicationRoot.get
    (ApplicationRoot.__setitem__ sample_root "db2" (ApplicationRoot.mkDatabase "db2" 1%nat)) "db"
  = ApplicationRoot.get sample_root "db".
Proof.
  apply (proj1 (proj2 (proj2 (proj2 (proj2
           (registry_setitem sample_root "db2" (ApplicationRoot.mkDatabase "db2" 1%nat)))))) "db").
  discriminate.
Defined.

(** X17. Deleting a key from the application root: an absent key raises
    [KeyError]; a key that is present is removed, so that afterwards it
    is not contained, [get] returns [None], [asyncget] and a second
    delete raise [KeyError], the length is one less, every other key is
    looked up as before, and storing the database again under the key
    gives back the registry as it was. *)
Theorem registry_delitem (self : ApplicationRoot.t) (key : string) :
  (ApplicationRoot._dbs self !! key = None ->
   ApplicationRoot.__delitem__ self key = Raise (KeyError key))
  /\ (forall db,
        ApplicationRoot._dbs self !! key = Some db ->
        exists self',
          ApplicationRoot.__delitem__ self key = Ok self'
          /\ ApplicationRoot.__contains__ self' key = false
          /\ ApplicationRoot.get self' key = Ok None
          /\ ApplicationRoot.asyncget self' key = Raise (KeyError key)
          /\ ApplicationRoot.__delitem__ self' key = Raise (KeyError key)
          /\ S (ApplicationRoot.__len__ self') = ApplicationRoot.__len__ self
          /\ (forall key', key' <> key ->
                ApplicationRoot.get self' key' = ApplicationRoot.get self key')
          /\ ApplicationRoot.__setitem__ self' key db = self).
Proof.
  unfold ApplicationRoot.__contains__, ApplicationRoot.get, ApplicationRoot.__getitem__,
    ApplicationRoot.asyncget, ApplicationRoot.__setitem__, ApplicationRoot.__len__,
    ApplicationRoot.__delitem__.
  split.
  - intros Habsent. by rewrite Habsent.
  - intros db Hpresent. rewrite Hpresent. eexists. split; [reflexivity|]. simpl.
    rewrite lookup_delete_eq. repeat (split; [done|]). split.
    { rewrite <- (insert_delete_id (ApplicationRoot._dbs self) key db Hpresent) at 2.
      rewrite map_size_insert_None; [done | apply lookup_delete_eq]. }
    split.
    { intros key' Hne. by rewrite lookup_delete_ne. }
    destruct self as [dbs]. simpl in *. f_equal. by apply insert_delete_id.
Qed.

Lemma registry_delitem_witness :
  exists self',
    ApplicationRoot.__delitem__ sample_root "db" = Ok self'
    /\ ApplicationRoot.get self' "db" = Ok None.
Proof.
  destruct (proj2 (registry_delitem sample_root "db")
              (ApplicationRoot.mkDatabase "db" 0%nat) eq_refl)
    as (self' & Hdel & _ & Hget & _).
  exists self'. split; [exact Hdel | exact Hget].
Defined.

(** ** The async utilities *)

Section Utilities.

Import AsyncUtilities.

Variable unregister : string -> result unit.

(** X18. Registering an async task: under an id that is free the task
    and its config are stored, the other ids are as before and nothing
    is cancelled; under an id that is taken [KeyError] is raised and
    nothing changes, so a second registration under the same id always
    fails and leaves the first in place. *)
Theorem add_async_task_once (self : t) (ident : string) (task1 task2 : nat)
    (config1 config2 : Config) :
  (_async_utilities self !! ident = None ->
   fst (add_async_task self ident task1 config1) = Ok tt
   /\ _async_utilities (snd (add_async_task self ident task1 config1)) !! ident
      = Some (mkUtility task1 config1)
   /\ (forall ident', ident' <> ident ->
         _async_utilities (snd (add_async_task self ident task1 config1)) !! ident'
         = _async_utilities self !! ident')
   /\ cancel_calls (snd (add_async_task self ident task1 config1)) = cancel_calls self)
  /\ (is_Some (_async_utilities self !! ident) ->
      add_async_task self ident task1 config1
      = (Raise (KeyError "Already exist an async utility with this id"), self))
  /\ add_async_task (snd (add_async_task self ident task1 config1)) ident task2 config2
     = (Raise (KeyError "Already exist an async utility with this id"),
        snd (add_async_task self ident task1 config1)).
Proof.
  unfold add_async_task. split; [|split].
  - intros Hfree. rewrite Hfree. simpl. split; [done|].
    split; [by rewrite lookup_insert_eq|]. split; [|done].
    intros ident' Hne. by rewrite lookup_insert_ne.
  - intros [u Hu]. by rewrite Hu.
  - destruct (_async_utilities self !! ident) as [u|] eqn:Hu; simpl.
    + by rewrite Hu.
    + by rewrite lookup_insert_eq.
Qed.

(** X19. Cancelling and removing an async utility. Under an id that is
    not registered both raise [KeyError] and nothing changes (no task is
    cancelled). [cancel_async_utility] on a registered id calls
    [cancel()] on its task and leaves it registered. [del_async_utility]
    on a registered id calls [cancel()] on its task once and then: when
    the component calls return, removes the id, keeps the others, and
    the id can be registered again; when they raise, raises the same
    exception with the cancelled task still registered. *)
Theorem cancel_and_del_async_utility (self : t) (config : Config) :
  (_async_utilities self !! provides config = None ->
   cancel_async_utility self (provides config)
   = (Raise (KeyError "Ident does not exist as utility"), self)
   /\ del_async_utility unregister self config
      = (Raise (KeyError "Ident does not exist as utility"), self))
  /\ (forall u,
        _async_utilities self !! provides config = Some u ->
        cancel_async_utility self (provides config)
        = (Ok tt, mk (_async_utilities self) (cancel_calls self ++ [task u]))
        /\ (unregister (provides config) = Ok tt ->
            del_async_utility unregister self config
            = (Ok tt, mk (delete (provides config) (_async_utilities self))
                         (cancel_calls self ++ [task u]))
            /\ forall task' config',
                 fst (add_async_task (snd (del_async_utility unregister self config))
                        (provides config) task' config') = Ok tt)
        /\ (forall e,
              unregister (provides config) = Raise e ->
              del_async_utility unregister self config
              = (Raise e, mk (_async_utilities self) (cancel_calls self ++ [task u])))).
Proof.
  unfold del_async_utility, cancel_async_utility. split.
  - intros Habsent. by rewrite Habsent.
  - intros u Hu. rewrite Hu. split; [done|]. split.
    + intros Hok. rewrite Hok. simpl. rewrite Hu. split; [done|].
      intros task' config'. unfold add_async_task. simpl.
      by rewrite lookup_delete_eq.
    + intros e He. by rewrite He.
Qed.

End Utilities.

Lemma add_async_task_once_witness :
  AsyncUtilities.add_async_task
    (snd (AsyncUtilities.add_async_task AsyncUtilities.empty "queue" 1%nat sample_config))
    "queue" 2%nat sample_config
  = (Raise (KeyError "Already exist an async utility with this id"),
     snd (AsyncUtilities.add_async_task AsyncUtilities.empty "queue" 1%nat sample_config)).
Proof.
  apply (proj1 (proj2 (add_async_task_once
                         (snd (AsyncUtilities.add_async_task AsyncUtilities.empty
                                 "queue" 1%nat sample_config))
                         "queue" 2%nat 2%nat sample_config sample_config))).
  vm_compute. eauto.
Defined.

Lemma cancel_and_del_async_utility_witness :
  AsyncUtilities.del_async_utility sample_unregister AsyncUtilities.empty sample_config
  = (Raise (KeyError "Ident does not exist as utility"), AsyncUtilities.empty).
Proof.
  apply (proj1 (cancel_and_del_async_utility sample_unregister AsyncUtilities.empty
                  sample_config)).
  reflexivity.
Defined.
